(** * uni2ts: the simple polars dataset builder

    A shallow embedding of [uni2ts/data/builder/simple_polars.py]: the record
    generator built by [_from_polars], the two dataset builders and the
    command-line driver [build_datasets], with the properties of the slice
    arithmetic, the per-row reshape, the validation and the loaders.

    Python floats are IEEE 754 binary64 values; they are modelled by the
    standard library's [spec_float] with precision 53 and maximal exponent
    1024, so that [int(rows * offset)] rounds as the interpreter does.  Python
    exceptions are values of [exn], and a computation that may raise returns a
    [result].  File-system and storage effects thread a [world]. *)

From Stdlib Require Import ZArith Lia Bool List Ascii String.
From Stdlib Require Import Floats.SpecFloat.
From stdpp Require Import gmap strings list.
Open Scope Z_scope.

(** * Exceptions and results *)

Inductive exn : Type :=
| ValueError (msg : string)
| OverflowError (msg : string)
| KeyError (key : string)
| FileNotFoundError (path : string)
| ColumnNotFoundError (col : string)
| ComputeError (msg : string)
| DatasetGenerationError (cause : exn).

Inductive result (A : Type) : Type :=
| Ok (a : A)
| Err (e : exn).
Arguments Ok {A} a.
Arguments Err {A} e.

#[global] Instance result_ret : MRet result := fun A a => Ok a.
#[global] Instance result_bind : MBind result :=
  fun A B k r => match r with
                 | Ok a => k a
                 | Err e => Err e
                 end.

(** * Python floats: binary64 *)

Definition prec64 : Z := 53.
Definition emax64 : Z := 1024.

Definition f_zero : spec_float := S754_zero false.
Definition f_one : spec_float := S754_finite false 4503599627370496 (-52).

(** Truncation toward zero of a mantissa [m >= 0] scaled by [2 ^ e]. *)
Definition trunc_me (m e : Z) : Z :=
  if 0 <=? e then m * 2 ^ e else m / 2 ^ (- e).

(** The conversion of a Python [int] to a float, as done for the left
    operand of [rows * offset]: round to nearest, ties to even. *)
Definition float_of_int (n : Z) : result spec_float :=
  match binary_normalize prec64 emax64 n 0 false with
  | S754_infinity _ => Err (OverflowError "int too large to convert to float")
  | f => Ok f
  end.

Definition float_mul (x y : spec_float) : spec_float := SFmul prec64 emax64 x y.

(** [int(f)] *)
Definition int_of_float (f : spec_float) : result Z :=
  match f with
  | S754_zero _ => Ok 0
  | S754_infinity _ =>
      Err (OverflowError "cannot convert float infinity to integer")
  | S754_nan => Err (ValueError "cannot convert float NaN to integer")
  | S754_finite s m e => Ok (cond_Zopp s (trunc_me (Zpos m) e))
  end.

Definition float_lt (x y : spec_float) : bool := SFltb x y.
Definition float_gt (x y : spec_float) : bool := SFltb y x.
Definition float_le (x y : spec_float) : bool := SFleb x y.
Definition float_valid (x : spec_float) : bool := valid_binary prec64 emax64 x.

(** [int(rows * x)] for an [int] [rows] and a float [x]. *)
Definition int_scale (rows : Z) (x : spec_float) : result Z :=
  r ← float_of_int rows; int_of_float (float_mul r x).

(** A well-formed float that lies in the closed unit interval. *)
Definition in_unit (x : spec_float) : bool :=
  float_valid x && float_le f_zero x && float_le x f_one.

(** [x > 1.0 or x < 0.0], the test of [_from_polars]. *)
Definition outside_unit (x : spec_float) : bool :=
  float_gt x f_one || float_lt x f_zero.

(** ** Rounding, as integer arithmetic

    The definitions below restate the rounding of [binary_round_aux] on
    integers; the lemmas of the second part prove that they agree with it. *)

(** [V / G] rounded to the nearest integer, ties to even. *)
Definition rne_div (V G : Z) : Z :=
  let q := V / G in
  match 2 * (V mod G) ?= G with
  | Lt => q
  | Eq => if Z.even q then q else q + 1
  | Gt => q + 1
  end.

(** The state of the shifter after [k >= 1] right shifts of [N]. *)
Definition shr_spec (N k : Z) : shr_record :=
  Build_shr_record (N / 2 ^ k) (Z.testbit N (k - 1))
                   (negb (N mod 2 ^ (k - 1) =? 0)).

Definition fexp64 (x : Z) : Z := fexp prec64 emax64 x.

Definition round_step (N e : Z) : Z * Z :=
  let k := fexp64 (Zdigits2 N + e) - e in
  if 0 <? k then (rne_div N (2 ^ k), e + k) else (N, e).

Definition trunc_step (me : Z * Z) : Z * Z :=
  let '(m, e) := me in
  let k := fexp64 (Zdigits2 m + e) - e in
  if 0 <? k then (m / 2 ^ k, e + k) else (m, e).

Definition round_pair (N e : Z) : Z * Z := trunc_step (round_step N e).

Definition pack (sx : bool) (me : Z * Z) : spec_float :=
  match fst me with
  | Z0 => S754_zero sx
  | Zpos m =>
      if snd me <=? emax64 - prec64 then S754_finite sx m (snd me)
      else S754_infinity sx
  | Zneg _ => S754_nan
  end.

(** The value of [N * 2 ^ e] after rounding, in units of [2 ^ E]. *)
Definition round_val (E N e : Z) : Z :=
  let G := 2 ^ (fexp64 (Zdigits2 N + e) - E) in
  G * rne_div (N * 2 ^ (e - E)) G.

(** The value of a non-negative float in units of [2 ^ (-1074)]. *)
Definition scaled_val (x : spec_float) : Z :=
  match x with
  | S754_finite false m e => Zpos m * 2 ^ (e + 1074)
  | _ => 0
  end.

(** * Python values *)

(** The values [args.freq] can hold. *)
Inductive pyvalue : Type :=
| PyStr (s : string)
| PyInt (n : Z)
| PyFloat (x : spec_float).

(** [v == 1.0] *)
Definition py_eq_one (v : pyvalue) : bool :=
  match v with
  | PyStr _ => false
  | PyInt n => n =? 1
  | PyFloat x => SFeqb x f_one
  end.

(** * pathlib *)

(** [rsplit c s] splits [s] at the last occurrence of [c], which stays at the
    head of the second part. *)
Fixpoint rsplit (c : ascii) (s : string) : option (string * string) :=
  match s with
  | EmptyString => None
  | String a rest =>
      match rsplit c rest with
      | Some (pre, suf) => Some (String a pre, suf)
      | None => if Ascii.eqb a c then Some (EmptyString, s) else None
      end
  end.

Definition path_name (p : string) : string :=
  match rsplit "/"%char p with
  | Some (_, String _ n) => n
  | _ => p
  end.

(** [Path.suffix]: the last dot of the final component and what follows it,
    unless that dot opens or closes the component. *)
Definition path_suffix (p : string) : string :=
  match rsplit "."%char (path_name p) with
  | Some (String _ _, String d (String a rest)) => String d (String a rest)
  | _ => EmptyString
  end.

Definition is_absolute (p : string) : bool :=
  match p with
  | String "/"%char _ => true
  | _ => false
  end.

(** [base / child] *)
Definition path_join (base child : string) : string :=
  match child with
  | String "/"%char _ => child
  | _ => base +:+ "/" +:+ child
  end.

(** * numpy *)

Record ndarray : Type := { nd_shape : list Z; nd_data : list spec_float }.

(** [np.array(l)] of a flat list *)
Definition np_array (l : list spec_float) : ndarray :=
  {| nd_shape := [Z.of_nat (List.length l)]; nd_data := l |}.

Definition nd_size (a : ndarray) : Z := Z.of_nat (List.length (nd_data a)).

(** [a.reshape((k, -1))]: the unknown dimension is the size divided by [k],
    and the call raises when [k] is zero or does not divide the size. *)
Definition reshape_rows (a : ndarray) (k : Z) : result ndarray :=
  if k <? 0 then Err (ValueError "negative dimensions not allowed")
  else if (k =? 0) || negb (nd_size a mod k =? 0)
       then Err (ValueError "cannot reshape array")
       else Ok {| nd_shape := [k; nd_size a / k]; nd_data := nd_data a |}.

(** * polars

    A parquet file is modelled by its rows; a row maps each column of the
    file to a cell, and a cell of a list-valued column is a list of numbers or
    null. *)

Abbreviation cell := (option (list spec_float)).
Abbreviation row := (gmap string cell).

(** [pl.col(name)] evaluated on one row *)
Definition col (r : row) (name : string) : result cell :=
  match r !! name with
  | Some c => Ok c
  | None => Err (ColumnNotFoundError name)
  end.

Definition is_not_null (c : cell) : bool :=
  match c with
  | Some _ => true
  | None => false
  end.

(** [pl.when(cond).then(c)], null where the condition fails *)
Definition when_then (cond : bool) (c : cell) : cell :=
  if cond then c else None.

(** [.list.first()] *)
Definition list_first (c : cell) : option spec_float :=
  match c with
  | Some (x :: _) => Some x
  | _ => None
  end.

(** Modelled from the spec: [pl.concat_list] over the value columns
    concatenates the non-null columns' sequences into one flat list. *)
Fixpoint concat_list (cells : list cell) : list spec_float :=
  match cells with
  | [] => []
  | Some xs :: rest => xs ++ concat_list rest
  | None :: rest => concat_list rest
  end.

(** [pl.fold(acc, function, exprs)] evaluated on one row *)
Definition fold (acc : Z) (function : Z -> Z -> Z) (exprs : list Z) : Z :=
  fold_left function exprs acc.

(** Modelled from the spec: [lf.slice(offset, length)] selects the rows with
    indices in [[offset, offset + length)]. *)
Definition lf_slice {A : Type} (offset length : Z) (l : list A) : list A :=
  take (Z.to_nat (offset + length) - Z.to_nat offset)%nat
       (drop (Z.to_nat offset) l).

(** A row of the collected frame: the source row with the three columns
    added by [with_columns]. *)
Record polars_row : Type := {
  pr_source : row;
  pr_start : option spec_float;
  pr_time_series : list spec_float;
  pr_non_null_columns : Z
}.

(** * The world: files, persisted datasets, environment *)

(** One yielded record.  [rec_item_id] stands for the string
    [f"{shard}_{row}"], kept as the pair it is formatted from. *)
Record record : Type := {
  rec_target : ndarray;
  rec_start : option spec_float;
  rec_freq : pyvalue;
  rec_item_id : string * polars_row
}.

Inductive dtype : Type :=
| Value (name : string)
| Sequence (inner : dtype).

Definition Features : Type := list (string * dtype).

(** What a generator has done when it stops: the records yielded so far and
    the exception that ended it, if one did. *)
Definition gen_trace : Type := list record * option exn.

Inductive event : Type :=
| ListDir (path : string)
| ScanParquet (path : string)
| SaveToDisk (path : string)
| LoadFromDisk (path : string).

Inductive fs_file : Type :=
| Parquet (rows : list row)
| OtherFile.

Record hf_dataset : Type := {
  ds_features : Features;
  ds_name : string;
  ds_records : list record
}.

(** [w_dirs] gives the entries of each directory in listing order,
    [w_files] the regular files, [w_saved] the datasets persisted by
    [save_to_disk]; [w_custom_data_path] is [env.CUSTOM_DATA_PATH],
    [w_cpu_count] is [os.cpu_count()], and [w_log] records every access. *)
Record world : Type := {
  w_dirs : gmap string (list string);
  w_files : gmap string fs_file;
  w_saved : gmap string hf_dataset;
  w_custom_data_path : string;
  w_cpu_count : Z;
  w_log : list event
}.

Definition log_event (ev : event) (w : world) : world :=
  {| w_dirs := w_dirs w; w_files := w_files w; w_saved := w_saved w;
     w_custom_data_path := w_custom_data_path w; w_cpu_count := w_cpu_count w;
     w_log := w_log w ++ [ev] |}.

(** [pl.scan_parquet(shard)], read when the row count is collected *)
Definition scan_parquet (shard : string) (w : world) : result (list row) * world :=
  (match w_files w !! shard with
   | Some (Parquet rows) => Ok rows
   | Some OtherFile => Err (ComputeError shard)
   | None => Err (FileNotFoundError shard)
   end, log_event (ScanParquet shard) w).

(** * The record generator *)

(** [offset_int = int(rows * offset)] and
    [length = int(rows * end) - offset_int] *)
Definition slice_bounds (rows : Z) (offset end_ : spec_float) : result (Z * Z) :=
  offset_int ← int_scale rows offset;
  end_int ← int_scale rows end_;
  Ok (offset_int, end_int - offset_int).

(** [start_exprs], [concatenation_exprs] and [not_null_column_count_expr]
    evaluated on one row *)
Definition with_columns (timestemp_column : string) (columns : list string)
    (r : row) : result polars_row :=
  ts ← col r timestemp_column;
  cells ← mapM (col r) columns;
  let non_null_columns := map (fun c => when_then (is_not_null c) c) cells in
  let non_null_flags := map (fun c => Z.b2z (is_not_null c)) cells in
  Ok {| pr_source := r;
        pr_start := list_first ts;
        pr_time_series := concat_list non_null_columns;
        pr_non_null_columns := fold 0 (fun acc x => acc + x) non_null_flags |}.

(** The body of the loop over [lf.iter_rows(named=True)] *)
Definition row_record (shard : string) (freq : pyvalue) (r : polars_row)
    : result record :=
  data ← reshape_rows (np_array (pr_time_series r)) (pr_non_null_columns r);
  Ok {| rec_target := data; rec_start := pr_start r; rec_freq := freq;
        rec_item_id := (shard, r) |}.

Fixpoint iter_rows (shard : string) (freq : pyvalue) (rows : list polars_row)
    : gen_trace :=
  match rows with
  | [] => ([], None)
  | r :: rest =>
      match row_record shard freq r with
      | Err e => ([], Some e)
      | Ok rec =>
          let '(recs, err) := iter_rows shard freq rest in (rec :: recs, err)
      end
  end.

(** The slice of one shard with its added columns, collected *)
Definition collect_shard (timestemp_column : string) (columns : list string)
    (offset end_ : spec_float) (rows : list row) : result (list polars_row) :=
  '(offset_int, length) ← slice_bounds (Z.of_nat (List.length rows)) offset end_;
  mapM (with_columns timestemp_column columns) (lf_slice offset_int length rows).

(** One turn of the loop over the shards *)
Definition shard_records (timestemp_column : string) (columns : list string)
    (offset end_ : spec_float) (freq : pyvalue) (shard : string) (w : world)
    : gen_trace * world :=
  let '(lf, w1) := scan_parquet shard w in
  match rows ← lf; collect_shard timestemp_column columns offset end_ rows with
  | Err e => (([], Some e), w1)
  | Ok prs => (iter_rows shard freq prs, w1)
  end.

Fixpoint generator_function (timestemp_column : string) (columns : list string)
    (offset end_ : spec_float) (freq : pyvalue) (shards : list string)
    (w : world) : gen_trace * world :=
  match shards with
  | [] => (([], None), w)
  | shard :: rest =>
      let '((recs, err), w1) :=
        shard_records timestemp_column columns offset end_ freq shard w in
      match err with
      | Some e => ((recs, Some e), w1)
      | None =>
          let '((recs', err'), w2) :=
            generator_function timestemp_column columns offset end_ freq rest w1 in
          ((recs ++ recs', err'), w2)
      end
  end.

(** Modelled from the spec: [GenFunc], of [uni2ts.common.typing], is the type
    of a generator callable taking the shards. *)
Definition GenFunc : Type := list string -> world -> gen_trace * world.

Definition features : Features :=
  [("item_id", Value "string"); ("start", Value "float32");
   ("freq", Value "string"); ("target", Sequence (Sequence (Value "float32")))].

Definition _from_polars (timestemp_column : string) (columns : list string)
    (offset end_ : spec_float) (freq : pyvalue) : result (GenFunc * Features) :=
  if float_gt offset f_one || float_lt offset f_zero then
    Err (ValueError "Offset should be a positive integer or a float between 0 and 1.")
  else if float_gt end_ f_one || float_lt end_ f_zero then
    Err (ValueError "End should be a positive integer or a float between 0 and 1.")
  else Ok (generator_function timestemp_column columns offset end_ freq, features).

(** * Effects: a world threaded through fallible operations *)

Definition io (A : Type) : Type := world -> result A * world.

#[global] Instance io_ret : MRet io := fun A a w => (Ok a, w).
#[global] Instance io_bind : MBind io :=
  fun A B k m w =>
    match m w with
    | (Ok a, w1) => k a w1
    | (Err e, w1) => (Err e, w1)
    end.

Definition lift {A : Type} (r : result A) : io A := fun w => (r, w).

(** [folder_path.iterdir()], consumed by the list comprehension *)
Definition iterdir (folder : string) : io (list string) :=
  fun w =>
    (match w_dirs w !! folder with
     | Some entries => Ok entries
     | None => Err (FileNotFoundError folder)
     end, log_event (ListDir folder) w).

Definition is_file (p : string) (w : world) : bool :=
  match w_files w !! p with
  | Some _ => true
  | None => false
  end.

Definition cpu_count : io Z := fun w => (Ok (w_cpu_count w), w).

(** * datasets *)

(** [datasets.Dataset.from_generator]: the generator is run over the shards
    to its end, and an exception it raises aborts the build.  The records are
    kept in the order of the shards, whatever the number of worker
    processes. *)
Definition from_generator (generator : GenFunc) (feats : Features)
    (shards : list string) (num_proc : Z) : io hf_dataset :=
  fun w =>
    let '((recs, err), w1) := generator shards w in
    match err with
    | Some e => (Err (DatasetGenerationError e), w1)
    | None =>
        (Ok {| ds_features := feats; ds_name := "generator"; ds_records := recs |},
         w1)
    end.

(** [hf_dataset.info.dataset_name = name] *)
Definition set_dataset_name (ds : hf_dataset) (name : string) : hf_dataset :=
  {| ds_features := ds_features ds; ds_name := name; ds_records := ds_records ds |}.

Definition save_to_disk (ds : hf_dataset) (path : string) : io unit :=
  fun w =>
    (Ok tt,
     log_event (SaveToDisk path)
       {| w_dirs := w_dirs w; w_files := w_files w;
          w_saved := <[path := ds]> (w_saved w);
          w_custom_data_path := w_custom_data_path w;
          w_cpu_count := w_cpu_count w; w_log := w_log w |}).

Definition load_from_disk (path : string) : io hf_dataset :=
  fun w =>
    (match w_saved w !! path with
     | Some ds => Ok ds
     | None => Err (FileNotFoundError path)
     end, log_event (LoadFromDisk path) w).

(** * The dataset views handed to training and evaluation *)

(** Modelled from the spec: [HuggingFaceDatasetIndexer], of
    [uni2ts.data.indexer], wraps the persisted dataset for random access. *)
Abbreviation HuggingFaceDatasetIndexer := hf_dataset.

(** Modelled from the spec: [SampleTimeSeriesType], of [uni2ts.data.dataset],
    is the sampling strategy; the builder's default is [NONE]. *)
Inductive SampleTimeSeriesType : Type := NONE | UNIFORM | PROPORTIONAL.

(** The keyword arguments a transform factory is called with *)
Abbreviation kwargs := (list (string * option Z)).

(** Modelled from the spec: [TimeSeriesDataset], of [uni2ts.data.dataset], is
    the sequence-dataset view, parameterised by the indexer, the transform,
    the sample weight and the sampling strategy. *)
Record TimeSeriesDataset (T : Type) : Type := {
  tsd_indexer : HuggingFaceDatasetIndexer;
  tsd_transform : T;
  tsd_dataset_weight : spec_float;
  tsd_sample_time_series : option SampleTimeSeriesType
}.
Arguments tsd_indexer {T} _.
Arguments tsd_transform {T} _.
Arguments tsd_dataset_weight {T} _.
Arguments tsd_sample_time_series {T} _.

(** Modelled from the spec: [EvalDataset], of [uni2ts.data.dataset], is the
    evaluation view, parameterised by the window count, the indexer and the
    transform. *)
Record EvalDataset (T : Type) : Type := {
  evd_windows : option Z;
  evd_indexer : HuggingFaceDatasetIndexer;
  evd_transform : T
}.
Arguments evd_windows {T} _.
Arguments evd_indexer {T} _.
Arguments evd_transform {T} _.

(** [transform_map[key]] *)
Definition getitem {T : Type} (transform_map : gmap string (kwargs -> T))
    (key : string) : result (kwargs -> T) :=
  match transform_map !! key with
  | Some factory => Ok factory
  | None => Err (KeyError key)
  end.

(** * The builders *)

(** The entries that are regular files with suffix [".parquet"] *)
Definition parquet_files (entries : list string) (w : world) : list string :=
  List.filter (fun p => is_file p w && String.eqb (path_suffix p) ".parquet")
              entries.

(** [num_workers if num_workers else os.cpu_count()] *)
Definition num_proc_of (num_workers : option Z) : io Z :=
  match num_workers with
  | Some n => if n =? 0 then cpu_count else mret n
  | None => cpu_count
  end.

Module SimplePolarsDatasetBuilder.
Record t : Type := {
  dataset : string;
  timestemp_column : string;
  columns : list string;
  weight : spec_float;
  sample_time_series : option SampleTimeSeriesType;
  storage_path : string
}.

Definition build_dataset (self : t) (folder_path : string)
    (offset end_ : spec_float) (freq : pyvalue) (num_workers : option Z)
    : io unit :=
  '(generator_func, feats) ←
    lift (_from_polars (timestemp_column self) (columns self) offset end_ freq);
  entries ← iterdir folder_path;
  polars_files ← (fun w => (Ok (parquet_files entries w), w));
  num_proc ← num_proc_of num_workers;
  hf_dataset ← from_generator generator_func feats polars_files num_proc;
  save_to_disk (set_dataset_name hf_dataset (dataset self))
               (path_join (storage_path self) (dataset self)).

Definition load_dataset {T : Type} (self : t)
    (transform_map : gmap string (kwargs -> T)) : io (TimeSeriesDataset T) :=
  indexer ← load_from_disk (path_join (storage_path self) (dataset self));
  factory ← lift (getitem transform_map (dataset self));
  mret {| tsd_indexer := indexer;
          tsd_transform := factory [];
          tsd_dataset_weight := weight self;
          tsd_sample_time_series := sample_time_series self |}.
End SimplePolarsDatasetBuilder.

Module SimpleEvalDatasetBuilder.
Record t : Type := {
  dataset : string;
  timestemp_column : string;
  columns : list string;
  offset : option Z;
  windows : option Z;
  distance : option Z;
  prediction_length : option Z;
  context_length : option Z;
  patch_size : option Z;
  storage_path : string
}.

Definition build_dataset (self : t) (folder_path : string)
    (offset end_ : spec_float) (freq : pyvalue) (num_workers : option Z)
    : io unit :=
  '(generator_func, feats) ←
    lift (_from_polars (timestemp_column self) (columns self) offset end_ freq);
  entries ← iterdir folder_path;
  polars_files ← (fun w => (Ok (parquet_files entries w), w));
  num_proc ← num_proc_of num_workers;
  hf_dataset ← from_generator generator_func feats polars_files num_proc;
  save_to_disk (set_dataset_name hf_dataset (dataset self))
               (path_join (storage_path self) (dataset self)).

Definition load_dataset {T : Type} (self : t)
    (transform_map : gmap string (kwargs -> T)) : io (EvalDataset T) :=
  indexer ← load_from_disk (path_join (storage_path self) (dataset self));
  factory ← lift (getitem transform_map (dataset self));
  mret {| evd_windows := windows self;
          evd_indexer := indexer;
          evd_transform :=
            factory [("offset", offset self);
                     ("distance", distance self);
                     ("prediction_length", prediction_length self);
                     ("context_length", context_length self);
                     ("patch_size", patch_size self)] |}.
End SimpleEvalDatasetBuilder.

(** * The command-line driver *)

Record Args : Type := {
  dataset_name : string;
  folder_path : string;
  timestemp_column : string;
  columns : list string;
  split_ratio : spec_float;
  freq : pyvalue
}.

(** [SimplePolarsDatasetBuilder(dataset=..., timestemp_column=...,
    columns=...)], the other fields at their defaults *)
Definition train_builder (args : Args) (w : world) : SimplePolarsDatasetBuilder.t :=
  {| SimplePolarsDatasetBuilder.dataset := dataset_name args;
     SimplePolarsDatasetBuilder.timestemp_column := timestemp_column args;
     SimplePolarsDatasetBuilder.columns := columns args;
     SimplePolarsDatasetBuilder.weight := f_one;
     SimplePolarsDatasetBuilder.sample_time_series := Some NONE;
     SimplePolarsDatasetBuilder.storage_path := w_custom_data_path w |}.

Definition eval_builder (args : Args) (w : world) : SimpleEvalDatasetBuilder.t :=
  {| SimpleEvalDatasetBuilder.dataset := dataset_name args +:+ "_eval";
     SimpleEvalDatasetBuilder.timestemp_column := timestemp_column args;
     SimpleEvalDatasetBuilder.columns := columns args;
     SimpleEvalDatasetBuilder.offset := None;
     SimpleEvalDatasetBuilder.windows := None;
     SimpleEvalDatasetBuilder.distance := None;
     SimpleEvalDatasetBuilder.prediction_length := None;
     SimpleEvalDatasetBuilder.context_length := None;
     SimpleEvalDatasetBuilder.patch_size := None;
     SimpleEvalDatasetBuilder.storage_path := w_custom_data_path w |}.

Definition build_datasets (args : Args) : io unit :=
  dataset_builder ← (fun w => (Ok (train_builder args w), w));
  _ ← SimplePolarsDatasetBuilder.build_dataset dataset_builder
        (folder_path args) f_zero (split_ratio args) (freq args) None;
  if py_eq_one (freq args) then mret tt
  else
    eval_dataset_builder ← (fun w => (Ok (eval_builder args w), w));
    SimpleEvalDatasetBuilder.build_dataset eval_dataset_builder
      (folder_path args) (split_ratio args) f_one (freq args) None.

(** * Notions used to state the properties *)

(** The row can be read and reshaped: the generator yields a record for it. *)
Definition row_ok (timestemp_column : string) (columns : list string)
    (r : row) : bool :=
  match with_columns timestemp_column columns r with
  | Ok pr =>
      match reshape_rows (np_array (pr_time_series pr)) (pr_non_null_columns pr) with
      | Ok _ => true
      | Err _ => false
      end
  | Err _ => false
  end.

(** The source row a record was made from *)
Definition record_source (rec : record) : row := pr_source (snd (rec_item_id rec)).

(** The number of value columns that are not null in a row *)
Definition non_null_count (r : row) (columns : list string) : Z :=
  Z.of_nat (List.length
              (List.filter (fun c => match r !! c with
                                     | Some (Some _) => true
                                     | _ => false
                                     end) columns)).

(** The sequences of the non-null value columns, one after the other *)
Fixpoint non_null_values (r : row) (columns : list string) : list spec_float :=
  match columns with
  | [] => []
  | c :: rest =>
      match r !! c with
      | Some (Some xs) => xs ++ non_null_values r rest
      | _ => non_null_values r rest
      end
  end.

Definition file_rows (w : world) (p : string) : list row :=
  match w_files w !! p with
  | Some (Parquet rows) => rows
  | _ => []
  end.

(** The file is a parquet file with fewer than 2^53 rows, each of which can
    be read and reshaped. *)
Definition file_ok (timestemp_column : string) (columns : list string)
    (w : world) (p : string) : bool :=
  match w_files w !! p with
  | Some (Parquet rows) =>
      (Z.of_nat (List.length rows) <? 2 ^ 53)
      && forallb (row_ok timestemp_column columns) rows
  | _ => false
  end.

Definition selected_rows (offset end_ : spec_float) (rows : list row)
    : list row :=
  match slice_bounds (Z.of_nat (List.length rows)) offset end_ with
  | Ok (offset_int, length) => lf_slice offset_int length rows
  | Err _ => []
  end.

(** [int(rows * ratio)] as a list index *)
Definition split_index (ratio : spec_float) (rows : list row) : nat :=
  match int_scale (Z.of_nat (List.length rows)) ratio with
  | Ok a => Z.to_nat a
  | Err _ => 0%nat
  end.

(** Two worlds that differ at most in their log *)
Definition same_store (w w' : world) : Prop :=
  w_dirs w' = w_dirs w /\ w_files w' = w_files w /\ w_saved w' = w_saved w
  /\ w_custom_data_path w' = w_custom_data_path w
  /\ w_cpu_count w' = w_cpu_count w.

(** * Concrete inputs used by the examples *)

Definition float_of_Z (n : Z) : spec_float :=
  binary_normalize prec64 emax64 n 0 false.

(** 0.8, 0.5 and 0.25 as binary64 values *)
Definition f_0_8 : spec_float := S754_finite false 7205759403792794 (-53).
Definition f_0_5 : spec_float := S754_finite false 4503599627370496 (-53).
Definition f_0_25 : spec_float := S754_finite false 4503599627370496 (-54).

(** Row [i] of the example file: a timestamp list, a value column [a] with
    a sequence of length 2, and a null value column [b]. *)
Definition example_row (i : Z) : row :=
  {[ "ts" := Some [float_of_Z i];
     "a" := Some [float_of_Z (10 * i); float_of_Z (10 * i + 1)];
     "b" := None ]}.

Definition example_rows : list row :=
  map example_row [0; 1; 2; 3; 4; 5; 6; 7; 8; 9].

(** A row whose value columns are all null *)
Definition null_row : row :=
  {[ "ts" := Some [float_of_Z 0]; "a" := None; "b" := None ]}.

(** A folder with one parquet file of ten rows, a text file and a
    sub-directory *)
Definition example_world : world :=
  {| w_dirs := {[ "data" := ["data/a.parquet"; "data/notes.txt"; "data/sub.parquet"] ]};
     w_files := {[ "data/a.parquet" := Parquet example_rows;
                   "data/notes.txt" := OtherFile ]};
     w_saved := ∅;
     w_custom_data_path := "store";
     w_cpu_count := 4;
     w_log := [] |}.

Definition null_row_world : world :=
  {| w_dirs := {[ "data" := ["data/a.parquet"] ]};
     w_files := {[ "data/a.parquet" :=
                     Parquet [example_row 0; null_row; example_row 2] ]};
     w_saved := ∅;
     w_custom_data_path := "store";
     w_cpu_count := 4;
     w_log := [] |}.

Definition example_args (ratio : spec_float) : Args :=
  {| dataset_name := "ds"; folder_path := "data"; timestemp_column := "ts";
     columns := ["a"; "b"]; split_ratio := ratio; freq := PyStr "H" |}.

Definition example_eval_twin : SimpleEvalDatasetBuilder.t :=
  {| SimpleEvalDatasetBuilder.dataset := "ds";
     SimpleEvalDatasetBuilder.timestemp_column := "ts";
     SimpleEvalDatasetBuilder.columns := ["a"; "b"];
     SimpleEvalDatasetBuilder.offset := Some 1;
     SimpleEvalDatasetBuilder.windows := Some 2;
     SimpleEvalDatasetBuilder.distance := Some 3;
     SimpleEvalDatasetBuilder.prediction_length := Some 4;
     SimpleEvalDatasetBuilder.context_length := Some 5;
     SimpleEvalDatasetBuilder.patch_size := Some 6;
     SimpleEvalDatasetBuilder.storage_path := "store" |}.

Definition example_transform_map : gmap string (kwargs -> list (string * option Z)) :=
  {[ "ds" := fun kw => ("train", None) :: kw;
     "ds_eval" := fun kw => ("eval", None) :: kw ]}.

(** The world after [build_datasets] on the example folder, ratio 0.8 *)
Definition built_world : world :=
  snd (build_datasets (example_args f_0_8) example_world).

(** * Further notions and inputs *)

(** The training builder with the four fields the two [build_dataset]
    methods read taken from an eval builder *)
Definition as_train (b : SimpleEvalDatasetBuilder.t) : SimplePolarsDatasetBuilder.t :=
  {| SimplePolarsDatasetBuilder.dataset := SimpleEvalDatasetBuilder.dataset b;
     SimplePolarsDatasetBuilder.timestemp_column :=
       SimpleEvalDatasetBuilder.timestemp_column b;
     SimplePolarsDatasetBuilder.columns := SimpleEvalDatasetBuilder.columns b;
     SimplePolarsDatasetBuilder.weight := f_one;
     SimplePolarsDatasetBuilder.sample_time_series := Some NONE;
     SimplePolarsDatasetBuilder.storage_path :=
       SimpleEvalDatasetBuilder.storage_path b |}.

(** A row whose two value columns hold sequences of lengths 1 and 3 *)
Definition ragged_row : row :=
  {[ "ts" := Some [float_of_Z 7];
     "a" := Some [float_of_Z 1];
     "b" := Some [float_of_Z 2; float_of_Z 3; float_of_Z 4] ]}.

(** A folder whose one parquet file has nine good rows and then a row with
    all value columns null *)
Definition late_null_world : world :=
  {| w_dirs := {[ "data" := ["data/a.parquet"] ]};
     w_files := {[ "data/a.parquet" :=
                     Parquet (map example_row [0; 1; 2; 3; 4; 5; 6; 7; 8]
                                ++ [null_row]) ]};
     w_saved := ∅;
     w_custom_data_path := "store";
     w_cpu_count := 4;
     w_log := [] |}.

Definition is_Ok_result {A : Type} (r : result A) : bool :=
  match r with
  | Ok _ => true
  | Err _ => false
  end.
(** * Part II: proofs *)

(** ** Rounding to nearest, ties to even *)

Section RoundHalfEven.

Lemma rne_div_exact (G q : Z) : 0 < G -> rne_div (G * q) G = q.
Proof.
  intros HG. unfold rne_div.
  replace (G * q) with (q * G) by lia.
  rewrite Z.mod_mul, Z.div_mul by lia.
  destruct (Z.compare_spec (2 * 0) G); lia.
Qed.

Lemma rne_div_mono (G V1 V2 : Z) :
  0 < G -> V1 <= V2 -> rne_div V1 G <= rne_div V2 G.
Proof.
  intros HG HV. unfold rne_div.
  pose proof (Z.div_mod V1 G ltac:(lia)) as E1.
  pose proof (Z.div_mod V2 G ltac:(lia)) as E2.
  pose proof (Z.mod_pos_bound V1 G HG) as B1.
  pose proof (Z.mod_pos_bound V2 G HG) as B2.
  set (q1 := V1 / G) in *. set (q2 := V2 / G) in *.
  set (r1 := V1 mod G) in *. set (r2 := V2 mod G) in *.
  assert (q1 < q2 \/ (q1 = q2 /\ r1 <= r2)) as [Hlt | [Heq Hr]] by nia.
  - destruct (Z.compare_spec (2 * r1) G), (Z.compare_spec (2 * r2) G);
      destruct (Z.even q1), (Z.even q2); lia.
  - rewrite <- Heq.
    destruct (Z.compare_spec (2 * r1) G), (Z.compare_spec (2 * r2) G);
      destruct (Z.even q1); lia.
Qed.

Lemma rne_div_scale (c V G : Z) :
  0 < c -> 0 < G -> rne_div (c * V) (c * G) = rne_div V G.
Proof.
  intros Hc HG. unfold rne_div.
  rewrite Z.div_mul_cancel_l, Z.mul_mod_distr_l by lia.
  pose proof (Z.mod_pos_bound V G HG) as B.
  destruct (Z.compare_spec (2 * (c * (V mod G))) (c * G)),
           (Z.compare_spec (2 * (V mod G)) G); try reflexivity; nia.
Qed.

Lemma rne_div_ge (G V q : Z) : 0 < G -> G * q <= V -> q <= rne_div V G.
Proof.
  intros HG H. apply Z.le_trans with (rne_div (G * q) G).
  - rewrite rne_div_exact; lia.
  - now apply rne_div_mono.
Qed.

Lemma rne_div_le (G V q : Z) : 0 < G -> V <= G * q -> rne_div V G <= q.
Proof.
  intros HG H. apply Z.le_trans with (rne_div (G * q) G).
  - now apply rne_div_mono.
  - rewrite rne_div_exact; lia.
Qed.

End RoundHalfEven.

(** ** Powers of two *)

Lemma pow2_pred (k : Z) : 1 <= k -> 2 ^ k = 2 ^ (k - 1) * 2.
Proof.
  intros Hk. replace k with ((k - 1) + 1) at 1 by lia.
  rewrite Z.pow_add_r by lia. reflexivity.
Qed.

Lemma pow2_pos (k : Z) : 0 <= k -> 0 < 2 ^ k.
Proof. intros. apply Z.pow_pos_nonneg; lia. Qed.

Lemma mod_pow2_split (N k : Z) :
  1 <= k ->
  N mod 2 ^ k
  = N mod 2 ^ (k - 1) + 2 ^ (k - 1) * Z.b2z (Z.testbit N (k - 1)).
Proof.
  intros Hk. pose proof (pow2_pos (k - 1) ltac:(lia)).
  rewrite (pow2_pred k) at 1 by lia.
  rewrite Z.rem_mul_r by lia. f_equal. f_equal.
  rewrite Z.testbit_spec' by lia. reflexivity.
Qed.

(** ** The right shifter of [binary_round_aux] *)

(** shr *)
Lemma iter_pos_iter {A} (f : A -> A) (p : positive) (x : A) :
  SpecFloat.iter_pos f p x = Pos.iter f x p.
Proof.
  revert x. induction p as [p IH | p IH |]; intros x; simpl.
  - rewrite !IH. now rewrite <- !Pos.iter_swap.
  - now rewrite !IH.
  - reflexivity.
Qed.

Lemma shr_1_nonneg (m : Z) (r s : bool) :
  0 <= m ->
  shr_1 (Build_shr_record m r s) = Build_shr_record (m / 2) (Z.odd m) (r || s).
Proof.
  intros Hm. destruct m as [| [p | p |] |]; try lia; simpl shr_1; f_equal.
  - rewrite Pos2Z.inj_xI. apply Z.div_unique with 1; lia.
  - rewrite Pos2Z.inj_xO. apply Z.div_unique with 0; lia.
Qed.

Lemma shr_spec_succ (N k : Z) :
  0 <= N -> 1 <= k -> shr_1 (shr_spec N k) = shr_spec N (k + 1).
Proof.
  intros HN Hk. unfold shr_spec.
  assert (0 < 2 ^ k) by (apply Z.pow_pos_nonneg; lia).
  assert (0 < 2 ^ (k - 1)) by (apply Z.pow_pos_nonneg; lia).
  rewrite shr_1_nonneg by (apply Z.div_pos; lia).
  f_equal.
  - rewrite Z.pow_add_r, Z.div_div by lia. reflexivity.
  - replace (k + 1 - 1) with k by lia.
    rewrite Z.testbit_odd, Z.shiftr_div_pow2 by lia. reflexivity.
  - replace (k + 1 - 1) with k by lia.
    rewrite (mod_pow2_split N k) by lia.
    pose proof (Z.mod_pos_bound N (2 ^ (k - 1)) ltac:(lia)).
    destruct (Z.testbit N (k - 1)); simpl Z.b2z;
      repeat match goal with
             | |- context [Z.eqb ?a ?b] => destruct (Z.eqb_spec a b)
             end; simpl; try reflexivity; lia.
Qed.

Lemma shr_iter_spec (N : Z) (p : positive) :
  0 <= N ->
  SpecFloat.iter_pos shr_1 p (Build_shr_record N false false) = shr_spec N (Zpos p).
Proof.
  intros HN. rewrite iter_pos_iter.
  apply Pos.iter_ind with (P := fun p a => a = shr_spec N (Zpos p)).
  - rewrite shr_1_nonneg by trivial. unfold shr_spec. simpl Z.sub.
    rewrite Z.pow_0_r, Z.pow_1_r, Z.mod_1_r, Z.bit0_odd. reflexivity.
  - intros q a ->. rewrite shr_spec_succ by lia.
    now rewrite Pos2Z.inj_succ.
Qed.

Lemma round_shr_spec (N k : Z) :
  0 <= N -> 1 <= k ->
  round_nearest_even (shr_m (shr_spec N k)) (loc_of_shr_record (shr_spec N k))
  = rne_div N (2 ^ k).
Proof.
  intros HN Hk. unfold shr_spec, rne_div. simpl shr_m.
  assert (0 < 2 ^ (k - 1)) as Hp by (apply Z.pow_pos_nonneg; lia).
  pose proof (pow2_pred k Hk) as E.
  pose proof (mod_pow2_split N k Hk) as Hm.
  pose proof (Z.mod_pos_bound N (2 ^ (k - 1)) Hp) as B.
  rewrite Hm.
  destruct (Z.testbit N (k - 1)); simpl Z.b2z;
  destruct (Z.eqb_spec (N mod 2 ^ (k - 1)) 0) as [E0 | E0]; simpl;
  destruct (Z.compare_spec (2 * (N mod 2 ^ (k - 1) + 2 ^ (k - 1) * 1)) (2 ^ k));
  destruct (Z.compare_spec (2 * (N mod 2 ^ (k - 1) + 2 ^ (k - 1) * 0)) (2 ^ k));
  try reflexivity; try lia.
Qed.

(** ** binary64: digits, exponents and the rounding of a product *)

Lemma fexp64_eq (x : Z) : fexp64 x = Z.max (x - 53) (-1074).
Proof. reflexivity. Qed.

Lemma digits2_pos_bounds (p : positive) :
  2 ^ (Zpos (digits2_pos p) - 1) <= Zpos p < 2 ^ Zpos (digits2_pos p).
Proof.
  induction p as [p IH | p IH |]; simpl digits2_pos.
  - rewrite Pos2Z.inj_succ.
    assert (1 <= Zpos (digits2_pos p)) as Hd by lia.
    set (d := Zpos (digits2_pos p)) in *. clearbody d.
    replace (Z.succ d - 1) with d by lia.
    pose proof (pow2_pred d Hd) as E1.
    assert (1 <= Z.succ d) as Hd' by lia.
    pose proof (pow2_pred (Z.succ d) Hd') as E2.
    replace (Z.succ d - 1) with d in E2 by lia. lia.
  - rewrite Pos2Z.inj_succ.
    assert (1 <= Zpos (digits2_pos p)) as Hd by lia.
    set (d := Zpos (digits2_pos p)) in *. clearbody d.
    replace (Z.succ d - 1) with d by lia.
    pose proof (pow2_pred d Hd) as E1.
    assert (1 <= Z.succ d) as Hd' by lia.
    pose proof (pow2_pred (Z.succ d) Hd') as E2.
    replace (Z.succ d - 1) with d in E2 by lia. lia.
  - simpl. lia.
Qed.

Lemma Zdigits2_bounds (m : Z) :
  0 < m -> 0 < Zdigits2 m /\ 2 ^ (Zdigits2 m - 1) <= m < 2 ^ Zdigits2 m.
Proof.
  destruct m as [| p | p]; try lia. intros _. simpl Zdigits2.
  split; [lia | apply digits2_pos_bounds].
Qed.

Lemma pow2_le (a b : Z) : 0 <= a <= b -> 2 ^ a <= 2 ^ b.
Proof. intros. apply Z.pow_le_mono_r; lia. Qed.

Lemma pow2_lt (a b : Z) : 0 <= a < b -> 2 ^ a < 2 ^ b.
Proof. intros. apply Z.pow_lt_mono_r; lia. Qed.

Lemma pow2_add (a b : Z) : 0 <= a -> 0 <= b -> 2 ^ (a + b) = 2 ^ a * 2 ^ b.
Proof. intros. apply Z.pow_add_r; lia. Qed.

Lemma Zdigits2_le (m d : Z) : 0 <= d -> 0 <= m < 2 ^ d -> Zdigits2 m <= d.
Proof.
  intros Hd [Hm0 Hm].
  destruct (Z.eq_dec m 0) as [-> | Hne]; [simpl; lia |].
  destruct (Zdigits2_bounds m ltac:(lia)) as [Hp [Hlo _]].
  destruct (Z_le_gt_dec (Zdigits2 m) d) as [? | Hgt]; [trivial | exfalso].
  pose proof (pow2_le d (Zdigits2 m - 1) ltac:(lia)). lia.
Qed.

Lemma Zdigits2_ge (m d : Z) : 0 <= d -> 2 ^ d <= m -> d + 1 <= Zdigits2 m.
Proof.
  intros Hd Hm. pose proof (pow2_pos d Hd).
  destruct (Zdigits2_bounds m ltac:(lia)) as [Hp [_ Hhi]].
  destruct (Z_le_gt_dec (d + 1) (Zdigits2 m)) as [? | Hgt]; [trivial | exfalso].
  pose proof (pow2_le (Zdigits2 m) d ltac:(lia)). lia.
Qed.

Lemma shr_exact (N e k : Z) :
  0 <= N ->
  shr (Build_shr_record N false false) e k
  = if 0 <? k then (shr_spec N k, e + k)
    else (Build_shr_record N false false, e).
Proof.
  intros HN. destruct k as [| p | p]; simpl; try reflexivity.
  now rewrite shr_iter_spec.
Qed.

Lemma binary_round_aux_pack (sx : bool) (N e : Z) :
  0 <= N ->
  binary_round_aux prec64 emax64 sx N e loc_Exact = pack sx (round_pair N e).
Proof.
  intros HN. unfold binary_round_aux, shr_fexp. simpl shr_record_of_loc.
  rewrite shr_exact by trivial.
  unfold round_pair, round_step, fexp64.
  set (k := fexp prec64 emax64 (Zdigits2 N + e) - e).
  destruct (Z.ltb_spec 0 k) as [Hk | Hk].
  - rewrite round_shr_spec by lia.
    assert (0 <= rne_div N (2 ^ k)) as Hr.
    { apply rne_div_ge; [apply pow2_pos; lia | lia]. }
    rewrite shr_exact by trivial. unfold trunc_step, fexp64.
    destruct (0 <? _); reflexivity.
  - simpl round_nearest_even. rewrite shr_exact by trivial.
    unfold trunc_step, fexp64. destruct (0 <? _); reflexivity.
Qed.

Lemma round_pair_val (E N e : Z) :
  0 < N -> E <= e -> E <= -1074 ->
  0 <= fst (round_pair N e)
  /\ E <= snd (round_pair N e)
  /\ snd (round_pair N e) <= Z.max e (fexp64 (Zdigits2 N + e)) + 1
  /\ fst (round_pair N e) * 2 ^ (snd (round_pair N e) - E) = round_val E N e.
Proof.
  intros HN HEe HE. unfold round_pair, round_step, round_val.
  destruct (Zdigits2_bounds N HN) as [Hd [Hlo Hhi]].
  set (d := Zdigits2 N) in *.
  set (e' := fexp64 (d + e)).
  assert (e' = Z.max (d + e - 53) (-1074)) as He' by apply fexp64_eq.
  destruct (Z.ltb_spec 0 (e' - e)) as [Hk | Hk].
  - (* a real shift: e < e' *)
    set (k := e' - e) in *.
    assert (0 < 2 ^ k) as Hpk by (apply pow2_pos; lia).
    assert (0 < 2 ^ (e - E)) as Hpc by (apply pow2_pos; lia).
    assert (2 ^ (e' - E) = 2 ^ (e - E) * 2 ^ k) as HG.
    { rewrite <- pow2_add by lia. f_equal. lia. }
    set (m1 := rne_div N (2 ^ k)).
    assert (0 <= m1) as Hm1 by (apply rne_div_ge; lia).
    assert (m1 <= 2 ^ 53) as Hm1'.
    { apply rne_div_le; [lia |]. rewrite <- pow2_add by lia.
      pose proof (pow2_le d (k + 53) ltac:(lia)). lia. }
    assert (round_val E N e = m1 * 2 ^ (e' - E)) as HV.
    { unfold round_val. fold d. fold e'. rewrite HG.
      rewrite (Z.mul_comm N), rne_div_scale by lia. fold m1. lia. }
    unfold round_val in HV. fold d in HV. fold e' in HV. rewrite HV.
    replace (e + k) with e' by lia.
    unfold trunc_step.
    set (k2 := fexp64 (Zdigits2 m1 + e') - e').
    assert (k2 = Z.max (Zdigits2 m1 + e' - 53) (-1074) - e') as Hk2
        by (unfold k2; now rewrite fexp64_eq).
    assert (Zdigits2 m1 <= 54) as Hd1.
    { apply Zdigits2_le; [lia |]. change (2 ^ 54) with (2 ^ 53 * 2). lia. }
    destruct (Z.ltb_spec 0 k2) as [Hk2p | Hk2p]; simpl fst; simpl snd.
    + assert (k2 = 1) as -> by lia.
      assert (54 <= Zdigits2 m1) as Hd54 by lia.
      assert (m1 = 2 ^ 53) as ->.
      { destruct (Z.eq_dec m1 (2 ^ 53)) as [? | Hne]; [trivial | exfalso].
        pose proof (Zdigits2_le m1 53 ltac:(lia) ltac:(lia)). lia. }
      repeat split; try lia.
      * apply Z.div_pos; lia.
      * change (2 ^ 53 / 2 ^ 1) with (2 ^ 52).
        replace (e' + 1 - E) with (1 + (e' - E)) by lia.
        rewrite pow2_add by lia. change (2 ^ 53) with (2 ^ 52 * 2 ^ 1). lia.
    + repeat split; lia.
  - (* no shift *)
    unfold trunc_step. fold d. fold e'.
    destruct (Z.ltb_spec 0 (e' - e)) as [? | _]; [lia |]. simpl fst; simpl snd.
    repeat split; try lia.
    assert (0 < 2 ^ (e' - E)) as HpG by (apply pow2_pos; lia).
    assert (2 ^ (e - E) = 2 ^ (e' - E) * 2 ^ (e - e')) as Hc.
    { rewrite <- pow2_add by lia. f_equal. lia. }
    rewrite Hc.
    replace (N * (2 ^ (e' - E) * 2 ^ (e - e')))
      with (2 ^ (e' - E) * (N * 2 ^ (e - e'))) by lia.
    rewrite rne_div_exact by lia. lia.
Qed.

Lemma scaled_bounds (E N e : Z) :
  0 < N -> E <= e ->
  2 ^ (Zdigits2 N - 1 + e - E) <= N * 2 ^ (e - E) < 2 ^ (Zdigits2 N + e - E).
Proof.
  intros HN HE. destruct (Zdigits2_bounds N HN) as [Hd [Hlo Hhi]].
  pose proof (pow2_pos (e - E) ltac:(lia)) as Hc.
  replace (Zdigits2 N - 1 + e - E) with ((Zdigits2 N - 1) + (e - E)) by lia.
  replace (Zdigits2 N + e - E) with (Zdigits2 N + (e - E)) by lia.
  rewrite !pow2_add by lia. nia.
Qed.

Lemma round_val_mono (E N1 e1 N2 e2 : Z) :
  0 < N1 -> 0 < N2 -> E <= e1 -> E <= e2 -> E <= -1074 ->
  N1 * 2 ^ (e1 - E) <= N2 * 2 ^ (e2 - E) ->
  round_val E N1 e1 <= round_val E N2 e2.
Proof.
  intros HN1 HN2 HE1 HE2 HE HV. unfold round_val.
  destruct (Zdigits2_bounds N1 HN1) as [Hd1 _].
  destruct (Zdigits2_bounds N2 HN2) as [Hd2 _].
  pose proof (scaled_bounds E N1 e1 HN1 HE1) as [Hlo1 Hhi1].
  pose proof (scaled_bounds E N2 e2 HN2 HE2) as [Hlo2 Hhi2].
  set (V1 := N1 * 2 ^ (e1 - E)) in *. set (V2 := N2 * 2 ^ (e2 - E)) in *.
  set (d1 := Zdigits2 N1) in *. set (d2 := Zdigits2 N2) in *.
  rewrite !fexp64_eq.
  set (x1 := Z.max (d1 + e1 - 53) (-1074)).
  set (x2 := Z.max (d2 + e2 - 53) (-1074)).
  assert (0 < 2 ^ (x1 - E)) as HG1 by (apply pow2_pos; lia).
  assert (0 < 2 ^ (x2 - E)) as HG2 by (apply pow2_pos; lia).
  destruct (Z.lt_trichotomy x1 x2) as [Hlt | [Heq | Hgt]].
  - (* the second value lies in a higher binade *)
    set (t := Z.max (d1 + e1) x1).
    assert (rne_div V1 (2 ^ (x1 - E)) <= 2 ^ (t - x1)) as H1.
    { apply rne_div_le; [lia |]. rewrite <- pow2_add by lia.
      replace (x1 - E + (t - x1)) with (t - E) by lia.
      pose proof (pow2_le (d1 + e1 - E) (t - E) ltac:(lia)). lia. }
    assert (2 ^ 52 <= rne_div V2 (2 ^ (x2 - E))) as H2.
    { apply rne_div_ge; [lia |]. rewrite <- pow2_add by lia.
      replace (x2 - E + 52) with (d2 - 1 + e2 - E) by lia. lia. }
    apply Z.le_trans with (2 ^ (x1 - E) * 2 ^ (t - x1)); [nia |].
    apply Z.le_trans with (2 ^ (x2 - E) * 2 ^ 52); [| nia].
    rewrite <- !pow2_add by lia. apply pow2_le. lia.
  - rewrite Heq. apply Z.mul_le_mono_nonneg_l; [lia |].
    apply rne_div_mono; lia.
  - exfalso.
    pose proof (pow2_le (d2 + e2 - E) (d1 - 1 + e1 - E) ltac:(lia)). lia.
Qed.

Lemma pow2_lt_inv (a b : Z) : 0 <= a -> 0 <= b -> 2 ^ a < 2 ^ b -> a < b.
Proof.
  intros Ha Hb H. destruct (Z_lt_ge_dec a b) as [? | Hge]; [trivial | exfalso].
  pose proof (pow2_le b a ltac:(lia)). lia.
Qed.

Lemma round_val_int_grid (E N e n : Z) :
  0 < N -> E <= e -> E <= -1074 -> 0 < n < 2 ^ 53 ->
  N * 2 ^ (e - E) <= n * 2 ^ (- E) ->
  exists q, n * 2 ^ (- E) = 2 ^ (fexp64 (Zdigits2 N + e) - E) * q.
Proof.
  intros HN HEe HE Hn HV.
  pose proof (scaled_bounds E N e HN HEe) as [Hlo _].
  pose proof (pow2_pos (- E) ltac:(lia)) as HpE.
  assert (2 ^ (Zdigits2 N - 1 + e - E) < 2 ^ (53 - E)) as Hlt.
  { replace (53 - E) with (53 + - E) by lia. rewrite pow2_add by lia. nia. }
  destruct (Zdigits2_bounds N HN) as [Hd _].
  apply pow2_lt_inv in Hlt; try lia.
  rewrite fexp64_eq. set (x := Z.max (Zdigits2 N + e - 53) (-1074)).
  exists (n * 2 ^ (- x)).
  replace (- E) with ((x - E) + - x) by lia.
  rewrite pow2_add by lia. lia.
Qed.

Lemma round_val_le_int (E N e n : Z) :
  0 < N -> E <= e -> E <= -1074 -> 0 < n < 2 ^ 53 ->
  N * 2 ^ (e - E) <= n * 2 ^ (- E) ->
  round_val E N e <= n * 2 ^ (- E).
Proof.
  intros HN HEe HE Hn HV.
  destruct (round_val_int_grid E N e n HN HEe HE Hn HV) as [q Hq].
  unfold round_val. rewrite Hq.
  assert (0 < 2 ^ (fexp64 (Zdigits2 N + e) - E)) as HG
      by (apply pow2_pos; rewrite fexp64_eq; lia).
  apply Z.mul_le_mono_nonneg_l; [lia |]. apply rne_div_le; lia.
Qed.

Lemma round_val_int_exact (E N e n : Z) :
  0 < N -> E <= e -> E <= -1074 -> 0 < n < 2 ^ 53 ->
  N * 2 ^ (e - E) = n * 2 ^ (- E) ->
  round_val E N e = n * 2 ^ (- E).
Proof.
  intros HN HEe HE Hn HV.
  destruct (round_val_int_grid E N e n HN HEe HE Hn ltac:(lia)) as [q Hq].
  unfold round_val. rewrite HV, Hq.
  rewrite rne_div_exact; [reflexivity |].
  apply pow2_pos; rewrite fexp64_eq; lia.
Qed.

Lemma round_val_nonneg (E N e : Z) :
  0 < N -> E <= e -> E <= -1074 -> 0 <= round_val E N e.
Proof.
  intros HN HEe HE. unfold round_val.
  assert (0 < 2 ^ (fexp64 (Zdigits2 N + e) - E)) as HG
      by (apply pow2_pos; rewrite fexp64_eq; lia).
  pose proof (pow2_pos (e - E) ltac:(lia)).
  apply Z.mul_nonneg_nonneg; [lia |]. apply rne_div_ge; nia.
Qed.

(** ** Truncation and the operations of Python floats *)

Lemma trunc_me_scaled (E m e : Z) :
  E <= e -> E <= 0 -> trunc_me m e = (m * 2 ^ (e - E)) / 2 ^ (- E).
Proof.
  intros HEe HE. unfold trunc_me.
  pose proof (pow2_pos (- E) ltac:(lia)) as HpE.
  destruct (Z.leb_spec 0 e) as [He | He].
  - replace (e - E) with (e + - E) by lia. rewrite pow2_add by lia.
    rewrite Z.mul_assoc, Z.div_mul by lia. reflexivity.
  - pose proof (pow2_pos (e - E) ltac:(lia)) as Hpc.
    replace (- E) with (- e + (e - E)) by lia. rewrite pow2_add by lia.
    rewrite Z.div_mul_cancel_r by lia. reflexivity.
Qed.

Lemma digits_exp_le (E N e n : Z) :
  0 < N -> E <= e -> E <= 0 -> 0 < n < 2 ^ 53 ->
  N * 2 ^ (e - E) <= n * 2 ^ (- E) ->
  Zdigits2 N + e <= 53.
Proof.
  intros HN HEe HE Hn HV.
  pose proof (scaled_bounds E N e HN HEe) as [Hlo _].
  pose proof (pow2_pos (- E) ltac:(lia)) as HpE.
  assert (2 ^ (Zdigits2 N - 1 + e - E) < 2 ^ (53 - E)) as Hlt.
  { replace (53 - E) with (53 + - E) by lia. rewrite pow2_add by lia. nia. }
  destruct (Zdigits2_bounds N HN) as [Hd _].
  apply pow2_lt_inv in Hlt; lia.
Qed.

Lemma pack_round_pair (sx : bool) (E N e : Z) :
  0 < N -> E <= e -> E <= -1074 -> e <= 970 -> Zdigits2 N + e <= 1023 ->
  (pack sx (round_pair N e) = S754_zero sx /\ round_val E N e = 0)
  \/ (exists m e', pack sx (round_pair N e) = S754_finite sx m e'
                   /\ E <= e' /\ Zpos m * 2 ^ (e' - E) = round_val E N e).
Proof.
  intros HN HEe HE He Hd.
  destruct (round_pair_val E N e HN HEe HE) as (H0 & HlE & Hhi & Hval).
  rewrite fexp64_eq in Hhi.
  unfold pack. destruct (round_pair N e) as [m e']. simpl fst in *. simpl snd in *.
  destruct m as [| m | m]; try lia.
  - left. split; [reflexivity | lia].
  - right. exists m, e'. unfold emax64, prec64.
    destruct (Z.leb_spec e' (1024 - 53)) as [_ | ?]; [| lia].
    repeat split; trivial.
Qed.

Lemma pos_iter_xO (p k : positive) :
  Zpos (Pos.iter xO p k) = Zpos p * 2 ^ Zpos k.
Proof.
  apply Pos.iter_ind with (P := fun k a => Zpos a = Zpos p * 2 ^ Zpos k).
  - lia.
  - intros q a IH. rewrite Pos2Z.inj_succ, Z.pow_succ_r by lia. lia.
Qed.

Lemma shl_align_spec (mx : positive) (ex ex' : Z) :
  let me := shl_align mx ex ex' in
  snd me = Z.min ex ex' /\ Zpos (fst me) = Zpos mx * 2 ^ (ex - snd me).
Proof.
  unfold shl_align. destruct (ex' - ex) as [| d | d] eqn:Hd; simpl.
  - split; [lia |]. rewrite Z.sub_diag. lia.
  - split; [lia |]. rewrite Z.sub_diag. lia.
  - split; [lia |]. rewrite pos_iter_xO. f_equal. f_equal. lia.
Qed.

Lemma float_of_int_pos (n : Z) :
  0 < n < 2 ^ 53 ->
  exists m e, float_of_int n = Ok (S754_finite false m e)
              /\ -1074 <= e /\ Zpos m * 2 ^ (e + 1074) = n * 2 ^ 1074.
Proof.
  intros Hn. destruct n as [| p | p]; try lia.
  unfold float_of_int, binary_normalize, binary_round.
  pose proof (shl_align_spec p 0
                (fexp prec64 emax64 (Zpos (digits2_pos p) + 0))) as [He Hm].
  destruct (shl_align p 0 _) as [mz ez]. simpl fst in *. simpl snd in *.
  change (fexp prec64 emax64 (Zpos (digits2_pos p) + 0))
    with (fexp64 (Zpos (digits2_pos p) + 0)) in He.
  rewrite fexp64_eq in He.
  rewrite binary_round_aux_pack by lia.
  assert (Zpos mz * 2 ^ (ez - -1074) = Zpos p * 2 ^ (- -1074)) as HV.
  { rewrite Hm. rewrite <- Z.mul_assoc, <- pow2_add by lia. f_equal. f_equal. lia. }
  pose proof (digits_exp_le (-1074) (Zpos mz) ez (Zpos p)
                ltac:(lia) ltac:(lia) ltac:(lia) Hn ltac:(lia)) as Hd.
  destruct (pack_round_pair false (-1074) (Zpos mz) ez)
    as [[_ H0] | (m & e' & -> & He' & Hval)]; try lia.
  - rewrite round_val_int_exact with (n := Zpos p) in H0; try lia.
  - rewrite round_val_int_exact with (n := Zpos p) in Hval; try lia.
    exists m, e'. repeat split; trivial.
Qed.

(** ** Comparison and the scaling [int(rows * x)] *)

Lemma pow2_2148 : 2 ^ 2148 = 2 ^ 1074 * 2 ^ 1074.
Proof. rewrite <- pow2_add by lia. reflexivity. Qed.

Lemma scaled_val_one : scaled_val f_one = 2 ^ 1074.
Proof.
  unfold scaled_val, f_one. change (Z.pos 4503599627370496) with (2 ^ 52).
  rewrite <- pow2_add by lia. reflexivity.
Qed.

Lemma bounded_canonical (m : positive) (e : Z) :
  bounded prec64 emax64 m e = true ->
  -1074 <= e <= 971 /\ Zpos (digits2_pos m) <= 53
  /\ (e = -1074 \/ Zpos (digits2_pos m) = 53).
Proof.
  unfold bounded, canonical_mantissa. intros H.
  apply andb_prop in H as [Hc He].
  apply Z.eqb_eq in Hc. apply Z.leb_le in He.
  change (fexp prec64 emax64 (Zpos (digits2_pos m) + e))
    with (fexp64 (Zpos (digits2_pos m) + e)) in Hc.
  rewrite fexp64_eq in Hc. unfold emax64, prec64 in He. lia.
Qed.

Lemma bounded_val_bounds (m : positive) (e : Z) :
  bounded prec64 emax64 m e = true ->
  Zpos m * 2 ^ (e + 1074) < 2 ^ (e + 1127)
  /\ (-1074 < e -> 2 ^ (e + 1126) <= Zpos m * 2 ^ (e + 1074)).
Proof.
  intros H. apply bounded_canonical in H as (He & Hd & Hn).
  pose proof (digits2_pos_bounds m) as [Hlo Hhi].
  pose proof (pow2_pos (e + 1074) ltac:(lia)) as Hp.
  split.
  - replace (e + 1127) with (53 + (e + 1074)) by lia.
    rewrite (pow2_add 53 (e + 1074)) by lia.
    pose proof (pow2_le (Zpos (digits2_pos m)) 53 ltac:(lia)).
    apply Z.mul_lt_mono_pos_r; lia.
  - intros Hgt. destruct Hn as [? | Hn]; [lia |]. rewrite Hn in Hlo.
    replace (e + 1126) with (52 + (e + 1074)) by lia.
    rewrite (pow2_add 52 (e + 1074)) by lia.
    change (53 - 1) with 52 in Hlo.
    apply Z.mul_le_mono_nonneg_r; lia.
Qed.

Lemma float_le_scaled (mx my : positive) (ex ey : Z) :
  bounded prec64 emax64 mx ex = true ->
  bounded prec64 emax64 my ey = true ->
  float_le (S754_finite false mx ex) (S754_finite false my ey) = true ->
  scaled_val (S754_finite false mx ex) <= scaled_val (S754_finite false my ey).
Proof.
  intros Hx Hy. unfold float_le, SFleb, SFcompare, scaled_val.
  pose proof (bounded_val_bounds mx ex Hx) as [Hxhi _].
  pose proof (bounded_val_bounds my ey Hy) as [_ Hylo].
  apply bounded_canonical in Hx as (Hex & _). apply bounded_canonical in Hy as (Hey & _).
  destruct (Z.compare_spec ex ey) as [Heq | Hlt | Hgt]; intros H; try discriminate.
  - subst ey. rewrite Pos.compare_cont_spec in H. simpl in H.
    assert (mx <= my)%positive as Hle.
    { unfold Pos.le. destruct (mx ?= my)%positive; try discriminate; congruence. }
    pose proof (pow2_pos (ex + 1074) ltac:(lia)). nia.
  - pose proof (Hylo ltac:(lia)).
    pose proof (pow2_le (ex + 1127) (ey + 1126) ltac:(lia)). lia.
Qed.

Lemma in_unit_cases (x : spec_float) :
  in_unit x = true ->
  (exists s, x = S754_zero s)
  \/ (exists m e, x = S754_finite false m e
                  /\ bounded prec64 emax64 m e = true
                  /\ e <= -52 /\ scaled_val x <= 2 ^ 1074).
Proof.
  unfold in_unit. intros H.
  apply andb_prop in H as [H H1]. apply andb_prop in H as [Hv H0].
  destruct x as [s | s | | s m e].
  - left. now exists s.
  - destruct s; discriminate.
  - discriminate.
  - right. destruct s; [discriminate |]. exists m, e.
    simpl in Hv. repeat split; trivial.
    + unfold float_le, SFleb, SFcompare, f_one in H1.
      destruct (Z.compare_spec e (-52)); try discriminate; lia.
    + rewrite <- scaled_val_one.
      apply float_le_scaled; trivial.
Qed.

Lemma int_scale_finite (n : Z) (mx : positive) (ex : Z) :
  0 < n < 2 ^ 53 ->
  bounded prec64 emax64 mx ex = true ->
  ex <= -52 ->
  scaled_val (S754_finite false mx ex) <= 2 ^ 1074 ->
  exists N e,
    0 < N /\ -2148 <= e
    /\ N * 2 ^ (e - -2148) = n * 2 ^ 1074 * scaled_val (S754_finite false mx ex)
    /\ int_scale n (S754_finite false mx ex)
       = Ok (round_val (-2148) N e / 2 ^ 2148).
Proof.
  intros Hn Hb Hex Hle.
  destruct (float_of_int_pos n Hn) as (mr & er & Hr & Her & Hvr).
  apply bounded_canonical in Hb as (Hexb & _).
  unfold scaled_val in *.
  pose proof (pow2_pos (er + 1074) ltac:(lia)) as Hpr.
  pose proof (pow2_pos (ex + 1074) ltac:(lia)) as Hpx.
  assert (er < 53) as Her'.
  { assert (2 ^ (er + 1074) < 2 ^ 1127) as Hlt.
    { replace 1127 with (53 + 1074) by lia.
      rewrite (pow2_add 53 1074) by lia.
      pose proof (pow2_pos 1074 ltac:(lia)) as HP.
      apply Z.le_lt_trans with (n * 2 ^ 1074).
      - rewrite <- Hvr. rewrite <- (Z.mul_1_l (2 ^ (er + 1074))) at 1.
        apply Z.mul_le_mono_nonneg_r; lia.
      - apply Z.mul_lt_mono_pos_r; lia. }
    apply pow2_lt_inv in Hlt; lia. }
  assert (Zpos (mr * mx) * 2 ^ (er + ex - -2148)
          = n * 2 ^ 1074 * (Zpos mx * 2 ^ (ex + 1074))) as HV.
  { replace (er + ex - -2148) with ((er + 1074) + (ex + 1074)) by lia.
    rewrite (pow2_add (er + 1074) (ex + 1074)) by lia.
    rewrite Pos2Z.inj_mul, <- Hvr. ring. }
  assert (Zpos (mr * mx) * 2 ^ (er + ex - -2148) <= n * 2 ^ (- -2148)) as HVle.
  { rewrite HV. change (- -2148) with 2148. rewrite pow2_2148.
    pose proof (pow2_pos 1074 ltac:(lia)).
    rewrite <- Z.mul_assoc. apply Z.mul_le_mono_nonneg_l; [lia |].
    apply Z.mul_le_mono_nonneg_l; lia. }
  exists (Zpos (mr * mx)), (er + ex). repeat split; try lia.
  unfold int_scale. rewrite Hr. simpl mbind.
  unfold float_mul, SFmul. simpl xorb.
  rewrite binary_round_aux_pack by lia.
  pose proof (digits_exp_le (-2148) (Zpos (mr * mx)) (er + ex) n
                ltac:(lia) ltac:(lia) ltac:(lia) Hn HVle) as Hd.
  destruct (pack_round_pair false (-2148) (Zpos (mr * mx)) (er + ex))
    as [[-> ->] | (m & e' & -> & He' & Hval)]; try lia.
  - reflexivity.
  - simpl int_of_float. rewrite <- Hval.
    rewrite (trunc_me_scaled (-2148)) by lia. reflexivity.
Qed.

Lemma int_scale_zero_rows (x : spec_float) :
  in_unit x = true -> int_scale 0 x = Ok 0.
Proof.
  intros H. apply in_unit_cases in H as [[s ->] | (m & e & -> & _)];
    reflexivity.
Qed.

Lemma int_scale_zero_frac (n : Z) (s : bool) :
  0 <= n < 2 ^ 53 -> int_scale n (S754_zero s) = Ok 0.
Proof.
  intros Hn. destruct (Z.eq_dec n 0) as [-> | Hne]; [reflexivity |].
  destruct (float_of_int_pos n ltac:(lia)) as (mr & er & Hr & _).
  unfold int_scale. rewrite Hr. reflexivity.
Qed.

Lemma div_2148_bounds (V n : Z) :
  0 <= V <= n * 2 ^ (- -2148) -> 0 <= V / 2 ^ 2148 <= n.
Proof.
  intros [H0 H1]. change (- -2148) with 2148 in H1.
  assert (0 < 2 ^ 2148) as Hp by (apply pow2_pos; lia).
  split.
  - apply Z.div_pos; lia.
  - apply Z.div_le_upper_bound; lia.
Qed.

(** [int(rows * x)] is defined, and lies between [0] and [rows], whenever
    the fraction [x] lies in the unit interval. *)
Lemma int_scale_range (n : Z) (x : spec_float) :
  0 <= n < 2 ^ 53 -> in_unit x = true ->
  exists a, int_scale n x = Ok a /\ 0 <= a <= n.
Proof.
  intros Hn Hx.
  destruct (Z.eq_dec n 0) as [-> | Hne].
  { exists 0. split; [now apply int_scale_zero_rows | lia]. }
  apply in_unit_cases in Hx as [[s ->] | (m & e & -> & Hb & He & Hv)].
  { exists 0. split; [now apply int_scale_zero_frac | lia]. }
  destruct (int_scale_finite n m e ltac:(lia) Hb He Hv)
    as (N & e0 & HN & He0 & HV & ->).
  eexists. split; [reflexivity |].
  apply div_2148_bounds. split.
  - apply round_val_nonneg; lia.
  - apply round_val_le_int; try lia. rewrite HV.
    change (- -2148) with 2148. rewrite pow2_2148.
    pose proof (pow2_pos 1074 ltac:(lia)).
    rewrite <- Z.mul_assoc. apply Z.mul_le_mono_nonneg_l; [lia |].
    apply Z.mul_le_mono_nonneg_l; lia.
Qed.

(** [int(rows * x)] is monotone in the fraction [x]. *)
Lemma int_scale_mono (n : Z) (x y : spec_float) :
  0 <= n < 2 ^ 53 -> in_unit x = true -> in_unit y = true ->
  float_le x y = true ->
  exists a b, int_scale n x = Ok a /\ int_scale n y = Ok b
              /\ 0 <= a /\ a <= b /\ b <= n.
Proof.
  intros Hn Hx Hy Hle.
  destruct (int_scale_range n x Hn Hx) as (a & Ha & Ha0 & Han).
  destruct (int_scale_range n y Hn Hy) as (b & Hb & Hb0 & Hbn).
  exists a, b. repeat split; trivial.
  destruct (Z.eq_dec n 0) as [-> | Hne]; [lia |].
  apply in_unit_cases in Hx as [[s ->] | (mx & ex & -> & Hbx & Hex & Hvx)].
  { rewrite int_scale_zero_frac in Ha by lia. inversion Ha. lia. }
  apply in_unit_cases in Hy as [[s ->] | (my & ey & -> & Hby & Hey & Hvy)].
  { discriminate Hle. }
  destruct (int_scale_finite n mx ex ltac:(lia) Hbx Hex Hvx)
    as (N1 & e1 & HN1 & He1 & HV1 & Hs1).
  destruct (int_scale_finite n my ey ltac:(lia) Hby Hey Hvy)
    as (N2 & e2 & HN2 & He2 & HV2 & Hs2).
  rewrite Hs1 in Ha. rewrite Hs2 in Hb. inversion Ha. inversion Hb.
  apply Z.div_le_mono; [apply pow2_pos; lia |].
  apply round_val_mono; try lia.
  rewrite HV1, HV2.
  pose proof (float_le_scaled mx my ex ey Hbx Hby Hle).
  pose proof (pow2_pos 1074 ltac:(lia)).
  apply Z.mul_le_mono_nonneg_l; [| trivial].
  apply Z.mul_nonneg_nonneg; lia.
Qed.

(** [int(rows * 0.0) = 0] and [int(rows * 1.0) = rows]. *)
Lemma int_scale_zero (n : Z) : 0 <= n < 2 ^ 53 -> int_scale n f_zero = Ok 0.
Proof. apply int_scale_zero_frac. Qed.

Lemma int_scale_one (n : Z) : 0 <= n < 2 ^ 53 -> int_scale n f_one = Ok n.
Proof.
  intros Hn. destruct (Z.eq_dec n 0) as [-> | Hne]; [reflexivity |].
  pose proof scaled_val_one as H1.
  destruct (int_scale_finite n 4503599627370496 (-52) ltac:(lia)
              eq_refl ltac:(lia) ltac:(fold f_one; lia))
    as (N & e0 & HN & He0 & HV & Hs).
  fold f_one in Hs, HV. rewrite Hs. f_equal.
  assert (N * 2 ^ (e0 - -2148) = n * 2 ^ (- -2148)) as HV'.
  { rewrite HV, H1. change (- -2148) with 2148. rewrite pow2_2148. ring. }
  rewrite (round_val_int_exact (-2148) N e0 n HN He0 ltac:(lia) ltac:(lia) HV').
  change (- -2148) with 2148. apply Z.div_mul.
  pose proof (pow2_pos 2148 ltac:(lia)). lia.
Qed.

(** * Slice arithmetic *)
Lemma float_lt_le (x y : spec_float) : float_lt x y = true -> float_le x y = true.
Proof.
  unfold float_lt, float_le, SFltb, SFleb.
  destruct (SFcompare x y) as [[| |] |]; congruence.
Qed.

Lemma in_unit_zero : in_unit f_zero = true.
Proof. reflexivity. Qed.

Lemma in_unit_one : in_unit f_one = true.
Proof. reflexivity. Qed.

Lemma in_unit_le_zero (x : spec_float) : in_unit x = true -> float_le f_zero x = true.
Proof.
  unfold in_unit. intros H. apply andb_prop in H as [H _].
  now apply andb_prop in H as [_ H].
Qed.

Lemma in_unit_le_one (x : spec_float) : in_unit x = true -> float_le x f_one = true.
Proof. unfold in_unit. intros H. now apply andb_prop in H as [_ H]. Qed.

Lemma slice_bounds_ok (n : Z) (offset end_ : spec_float) :
  0 <= n < 2 ^ 53 -> in_unit offset = true -> in_unit end_ = true ->
  float_le offset end_ = true ->
  exists a b, int_scale n offset = Ok a /\ int_scale n end_ = Ok b
              /\ 0 <= a /\ a <= b /\ b <= n
              /\ slice_bounds n offset end_ = Ok (a, b - a).
Proof.
  intros Hn Ho He Hle.
  destruct (int_scale_mono n offset end_ Hn Ho He Hle)
    as (a & b & Ha & Hb & H0 & Hab & Hbn).
  exists a, b. repeat split; trivial.
  unfold slice_bounds. rewrite Ha, Hb. reflexivity.
Qed.

Lemma lf_slice_take_drop {A : Type} (a len : Z) (l : list A) :
  0 <= a -> 0 <= len ->
  lf_slice a len l = take (Z.to_nat len) (drop (Z.to_nat a) l).
Proof.
  intros Ha Hl. unfold lf_slice. f_equal. lia.
Qed.



Lemma lf_slice_nonpos {A : Type} (a len : Z) (l : list A) :
  len <= 0 -> lf_slice a len l = [].
Proof.
  intros Hl. unfold lf_slice.
  replace (Z.to_nat (a + len) - Z.to_nat a)%nat with 0%nat by lia.
  reflexivity.
Qed.


(** * The generator, row by row *)
Lemma mapM_result_nil {A B : Type} (f : A -> result B) : mapM f [] = Ok [].
Proof. reflexivity. Qed.

Lemma mapM_result_cons {A B : Type} (f : A -> result B) (x : A) (l : list A) :
  mapM f (x :: l)
  = match f x with
    | Ok y => match mapM f l with
              | Ok ys => Ok (y :: ys)
              | Err e => Err e
              end
    | Err e => Err e
    end.
Proof. reflexivity. Qed.

Lemma mapM_result_Forall2 {A B : Type} (f : A -> result B) (l : list A)
    (ys : list B) :
  mapM f l = Ok ys -> Forall2 (fun x y => f x = Ok y) l ys.
Proof.
  revert ys. induction l as [| x l IH]; intros ys H.
  - rewrite mapM_result_nil in H. inversion H. constructor.
  - rewrite mapM_result_cons in H.
    destruct (f x) as [y |] eqn:Hx; [| discriminate].
    destruct (mapM f l) as [ys' |] eqn:Hl; [| discriminate].
    inversion H; subst. constructor; auto.
Qed.

Lemma mapM_result_total {A B : Type} (f : A -> result B) (l : list A) :
  Forall (fun x => exists y, f x = Ok y) l -> exists ys, mapM f l = Ok ys.
Proof.
  induction 1 as [| x l [y Hy] _ [ys Hys]].
  - now exists [].
  - exists (y :: ys). rewrite mapM_result_cons, Hy, Hys. reflexivity.
Qed.

Lemma col_inv (r : row) (name : string) (c : cell) :
  col r name = Ok c -> r !! name = Some c.
Proof. unfold col. destruct (r !! name); congruence. Qed.

Lemma col_lookup (r : row) (name : string) (c : cell) :
  r !! name = Some c -> col r name = Ok c.
Proof. unfold col. now intros ->. Qed.

Lemma with_columns_inv (ts : string) (cols : list string) (r : row)
    (pr : polars_row) :
  with_columns ts cols r = Ok pr ->
  exists c cells,
    r !! ts = Some c /\ mapM (col r) cols = Ok cells
    /\ pr = {| pr_source := r;
               pr_start := list_first c;
               pr_time_series :=
                 concat_list (map (fun c => when_then (is_not_null c) c) cells);
               pr_non_null_columns :=
                 fold 0 (fun acc x => acc + x)
                      (map (fun c => Z.b2z (is_not_null c)) cells) |}.
Proof.
  unfold with_columns. intros H.
  destruct (col r ts) as [c |] eqn:Hc; cbn [mbind result_bind] in H;
    [| discriminate].
  destruct (mapM (col r) cols) as [cells |]; cbn [mbind result_bind] in H;
    [| discriminate].
  apply col_inv in Hc. inversion H. now exists c, cells.
Qed.

Lemma row_ok_inv (ts : string) (cols : list string) (r : row) :
  row_ok ts cols r = true ->
  exists pr data,
    with_columns ts cols r = Ok pr
    /\ reshape_rows (np_array (pr_time_series pr)) (pr_non_null_columns pr)
       = Ok data.
Proof.
  unfold row_ok. intros H.
  destruct (with_columns ts cols r) as [pr |]; [| discriminate].
  destruct (reshape_rows _ _) as [data |] eqn:Hd; [| discriminate].
  now exists pr, data.
Qed.

Lemma iter_rows_sources (shard : string) (freq : pyvalue)
    (prs : list polars_row) (recs : list record) :
  iter_rows shard freq prs = (recs, None) ->
  map (fun rec => snd (rec_item_id rec)) recs = prs.
Proof.
  revert recs. induction prs as [| pr prs IH]; intros recs H; simpl in H.
  - now inversion H.
  - unfold row_record in H.
    destruct (reshape_rows _ _) as [data |]; cbn [mbind result_bind] in H;
      [| discriminate].
    destruct (iter_rows shard freq prs) as [recs' err'].
    inversion H; subst. simpl. f_equal. now apply IH.
Qed.

Lemma iter_rows_total (shard : string) (freq : pyvalue) (prs : list polars_row) :
  Forall (fun pr => exists data,
              reshape_rows (np_array (pr_time_series pr)) (pr_non_null_columns pr)
              = Ok data) prs ->
  exists recs, iter_rows shard freq prs = (recs, None).
Proof.
  induction 1 as [| pr prs [data Hd] _ [recs Hrecs]]; simpl.
  - now exists [].
  - unfold row_record. rewrite Hd. cbn [mbind result_bind]. rewrite Hrecs.
    eexists. reflexivity.
Qed.

Lemma iter_rows_fields (shard : string) (freq : pyvalue)
    (prs : list polars_row) (recs : list record) (err : option exn) :
  iter_rows shard freq prs = (recs, err) ->
  Forall (fun rec => rec_freq rec = freq
                     /\ fst (rec_item_id rec) = shard
                     /\ rec_start rec = pr_start (snd (rec_item_id rec))
                     /\ In (snd (rec_item_id rec)) prs) recs.
Proof.
  revert recs err. induction prs as [| pr prs IH]; intros recs err H; simpl in H.
  - inversion H. constructor.
  - unfold row_record in H.
    destruct (reshape_rows _ _) as [data |]; cbn [mbind result_bind] in H.
    + destruct (iter_rows shard freq prs) as [recs' err'] eqn:Hr.
      inversion H; subst. constructor.
      * simpl. auto.
      * eapply Forall_impl; [apply (IH _ _ eq_refl) |].
        simpl. intros rec (? & ? & ? & ?). auto.
    + inversion H. constructor.
Qed.

Lemma collect_shard_ok (ts : string) (cols : list string)
    (offset end_ : spec_float) (rows : list row) (a b : Z) :
  slice_bounds (Z.of_nat (List.length rows)) offset end_ = Ok (a, b - a) ->
  collect_shard ts cols offset end_ rows
  = mapM (with_columns ts cols) (lf_slice a (b - a) rows).
Proof. unfold collect_shard. intros ->. reflexivity. Qed.

Lemma mapM_with_columns_sources (ts : string) (cols : list string)
    (l : list row) (prs : list polars_row) :
  mapM (with_columns ts cols) l = Ok prs -> map pr_source prs = l.
Proof.
  intros H. apply mapM_result_Forall2 in H.
  induction H as [| r pr l prs Hr _ IH]; simpl; [reflexivity |].
  apply with_columns_inv in Hr as (c & cells & _ & _ & ->). simpl. now f_equal.
Qed.

Lemma shard_records_sources (ts : string) (cols : list string)
    (offset end_ : spec_float) (freq : pyvalue) (shard : string) (w w' : world)
    (rows : list row) (recs : list record) (a b : Z) :
  w_files w !! shard = Some (Parquet rows) ->
  slice_bounds (Z.of_nat (List.length rows)) offset end_ = Ok (a, b - a) ->
  shard_records ts cols offset end_ freq shard w = ((recs, None), w') ->
  map record_source recs = lf_slice a (b - a) rows.
Proof.
  intros Hf Hs. unfold shard_records, scan_parquet. rewrite Hf.
  cbn [mbind result_bind]. rewrite (collect_shard_ok _ _ _ _ _ a b Hs).
  destruct (mapM _ _) as [prs |] eqn:Hm; intros H; [| inversion H].
  inversion H as [[Hi Hw]].
  apply iter_rows_sources in Hi. apply mapM_with_columns_sources in Hm.
  rewrite <- Hm, <- Hi. unfold record_source. now rewrite map_map.
Qed.

Lemma shard_records_total (ts : string) (cols : list string)
    (offset end_ : spec_float) (freq : pyvalue) (shard : string) (w : world)
    (rows : list row) (a b : Z) :
  w_files w !! shard = Some (Parquet rows) ->
  slice_bounds (Z.of_nat (List.length rows)) offset end_ = Ok (a, b - a) ->
  Forall (fun r => row_ok ts cols r = true) (lf_slice a (b - a) rows) ->
  exists recs,
    shard_records ts cols offset end_ freq shard w
    = ((recs, None), log_event (ScanParquet shard) w).
Proof.
  intros Hf Hs Hok. unfold shard_records, scan_parquet. rewrite Hf.
  cbn [mbind result_bind]. rewrite (collect_shard_ok _ _ _ _ _ a b Hs).
  destruct (mapM_result_total (with_columns ts cols) (lf_slice a (b - a) rows))
    as [prs Hprs].
  { eapply Forall_impl; [exact Hok |]. simpl. intros r Hr.
    apply row_ok_inv in Hr as (pr & _ & Hpr & _). now exists pr. }
  rewrite Hprs.
  destruct (iter_rows_total shard freq prs) as [recs Hrecs].
  { apply mapM_result_Forall2 in Hprs.
    clear Hs. induction Hprs as [| r pr l prs Hr _ IH]; constructor.
    - apply Forall_inv in Hok. apply row_ok_inv in Hok as (pr' & data & Hpr' & Hd).
      rewrite Hr in Hpr'. inversion Hpr'; subst. now exists data.
    - apply IH. now apply Forall_inv_tail in Hok. }
  rewrite Hrecs. now exists recs.
Qed.

(** * Comparisons of floats *)
Lemma SFcompare_antisym (x y : spec_float) :
  SFcompare y x = option_map CompOpp (SFcompare x y).
Proof.
  destruct x as [sx | sx | | sx mx ex], y as [sy | sy | | sy my ey];
    simpl; try reflexivity;
    try (destruct sx; reflexivity); try (destruct sy; reflexivity);
    try (destruct sx, sy; reflexivity).
  pose proof (Pos.compare_cont_antisym mx my Eq) as E. simpl in E.
  destruct sx, sy; simpl; try reflexivity;
    rewrite (Z.compare_antisym ex ey); destruct (ex ?= ey); simpl;
    try reflexivity; f_equal; rewrite <- E; try reflexivity.
Qed.

Lemma SFcompare_total (x y : spec_float) :
  x <> S754_nan -> y <> S754_nan -> exists c, SFcompare x y = Some c.
Proof.
  intros Hx Hy.
  destruct x as [sx | sx | | sx mx ex], y as [sy | sy | | sy my ey];
    try congruence; simpl; eexists; reflexivity.
Qed.

Lemma float_gt_not_le (x y : spec_float) :
  x <> S754_nan -> y <> S754_nan -> float_gt x y = negb (float_le x y).
Proof.
  intros Hx Hy. unfold float_gt, float_le, SFltb, SFleb.
  rewrite (SFcompare_antisym x y).
  destruct (SFcompare_total x y Hx Hy) as [c ->]. destruct c; reflexivity.
Qed.

Lemma float_lt_not_le (x y : spec_float) :
  x <> S754_nan -> y <> S754_nan -> float_lt x y = negb (float_le y x).
Proof. intros Hx Hy. apply (float_gt_not_le y x Hy Hx). Qed.

Lemma outside_unit_spec (x : spec_float) :
  x <> S754_nan ->
  outside_unit x = negb (float_le f_zero x && float_le x f_one).
Proof.
  intros Hx. unfold outside_unit.
  rewrite float_gt_not_le, float_lt_not_le by (trivial; discriminate).
  destruct (float_le f_zero x), (float_le x f_one); reflexivity.
Qed.

Lemma in_unit_not_nan (x : spec_float) : in_unit x = true -> x <> S754_nan.
Proof. intros H ->. discriminate H. Qed.

Lemma in_unit_inside (x : spec_float) : in_unit x = true -> outside_unit x = false.
Proof.
  intros H. rewrite outside_unit_spec by now apply in_unit_not_nan.
  rewrite (in_unit_le_zero x H), (in_unit_le_one x H). reflexivity.
Qed.

Lemma from_polars_unfold (ts : string) (cols : list string)
    (offset end_ : spec_float) (freq : pyvalue) :
  _from_polars ts cols offset end_ freq
  = if outside_unit offset then
      Err (ValueError "Offset should be a positive integer or a float between 0 and 1.")
    else if outside_unit end_ then
      Err (ValueError "End should be a positive integer or a float between 0 and 1.")
    else Ok (generator_function ts cols offset end_ freq, features).
Proof. reflexivity. Qed.

Lemma from_polars_in_unit (ts : string) (cols : list string)
    (offset end_ : spec_float) (freq : pyvalue) :
  in_unit offset = true -> in_unit end_ = true ->
  _from_polars ts cols offset end_ freq
  = Ok (generator_function ts cols offset end_ freq, features).
Proof.
  intros Ho He. rewrite from_polars_unfold.
  now rewrite (in_unit_inside offset Ho), (in_unit_inside end_ He).
Qed.

(** * Claims about the slice arithmetic *)



(** C10 (as amended): construction never compares [offset] with [end_]; for
    fractions in [0, 1] with [end_ < offset] it succeeds, and the slice length
    [int(rows * end_) - int(rows * offset)] it later computes is not positive
    (negative or zero) and is handed to the row-range slice as it is. *)
Theorem from_polars_reversed_range (ts : string) (cols : list string)
    (offset end_ : spec_float) (freq : pyvalue) (rows : list row) :
  Z.of_nat (List.length rows) < 2 ^ 53 ->
  in_unit offset = true -> in_unit end_ = true ->
  float_lt end_ offset = true ->
  _from_polars ts cols offset end_ freq
  = Ok (generator_function ts cols offset end_ freq, features)
  /\ exists a len : Z,
       slice_bounds (Z.of_nat (List.length rows)) offset end_ = Ok (a, len)
       /\ len <= 0
       /\ collect_shard ts cols offset end_ rows
          = mapM (with_columns ts cols) (lf_slice a len rows).
Proof.
  intros Hn Ho He Hlt. split; [now apply from_polars_in_unit |].
  destruct (int_scale_mono (Z.of_nat (List.length rows)) end_ offset
              ltac:(lia) He Ho (float_lt_le _ _ Hlt))
    as (b & a & Hb & Ha & _ & Hba & _).
  exists a, (b - a).
  assert (slice_bounds (Z.of_nat (List.length rows)) offset end_ = Ok (a, b - a))
    as Hs by (unfold slice_bounds; now rewrite Ha, Hb).
  repeat split; [exact Hs | lia | now apply collect_shard_ok].
Qed.

Lemma from_polars_reversed_range_witness :
  exists a len : Z,
    slice_bounds (Z.of_nat (List.length example_rows)) f_0_8 f_0_5 = Ok (a, len)
    /\ len <= 0.
Proof.
  destruct (from_polars_reversed_range "ts" ["a"; "b"] f_0_8 f_0_5 (PyStr "H")
              example_rows)
    as (_ & a & len & Hs & Hlen & _).
  - vm_compute. reflexivity.
  - reflexivity.
  - reflexivity.
  - reflexivity.
  - exists a, len. split; assumption.
Defined.

(** C10 as stated fails: with one row, [offset = 0.5] and [end_ = 0.25] the
    two products both truncate to 0, so the length is 0, not negative. *)
Lemma reversed_range_length_not_negative :
  exists (rows : Z) (offset end_ : spec_float),
    in_unit offset = true /\ in_unit end_ = true
    /\ float_lt end_ offset = true
    /\ exists a len : Z,
         slice_bounds rows offset end_ = Ok (a, len) /\ ~ len < 0.
Proof.
  exists 1, f_0_5, f_0_25. repeat split.
  exists 0, 0. split; [reflexivity | lia].
Qed.

(** * The per-row reshape *)
Lemma fold_add_acc (l : list Z) (acc : Z) :
  fold acc (fun acc x => acc + x) l = acc + fold 0 (fun acc x => acc + x) l.
Proof.
  unfold fold. revert acc. induction l as [| x l IH]; intros acc; simpl.
  - lia.
  - rewrite (IH (acc + x)), (IH (0 + x)). lia.
Qed.

Lemma fold_cons (f : Z -> Z -> Z) (acc x : Z) (l : list Z) :
  fold acc f (x :: l) = fold (f acc x) f l.
Proof. reflexivity. Qed.

Lemma with_columns_cells (r : row) (cols : list string) (cells : list cell) :
  mapM (col r) cols = Ok cells ->
  fold 0 (fun acc x => acc + x) (map (fun c => Z.b2z (is_not_null c)) cells)
  = non_null_count r cols
  /\ concat_list (map (fun c => when_then (is_not_null c) c) cells)
     = non_null_values r cols.
Proof.
  intros H. apply mapM_result_Forall2 in H.
  induction H as [| name c cols cells Hc _ [IHn IHv]].
  - split; reflexivity.
  - apply col_inv in Hc. unfold non_null_count in *.
    cbn [map List.filter non_null_values]. rewrite Hc.
    destruct c as [xs |]; cbn [is_not_null when_then Z.b2z concat_list List.length].
    + rewrite fold_cons, fold_add_acc, IHn, IHv. split; [lia | reflexivity].
    + rewrite fold_cons, fold_add_acc, IHn, IHv. split; [lia | reflexivity].
Qed.

Lemma non_null_values_length (r : row) (cols : list string) (L : nat) :
  (forall c xs, In c cols -> r !! c = Some (Some xs) -> List.length xs = L) ->
  Z.of_nat (List.length (non_null_values r cols))
  = non_null_count r cols * Z.of_nat L.
Proof.
  unfold non_null_count. induction cols as [| c cols IH]; intros H;
    cbn [List.filter non_null_values].
  - reflexivity.
  - specialize (IH (fun c' xs Hin => H c' xs (or_intror Hin))).
    destruct (r !! c) as [[xs |] |] eqn:Hc; cbn [List.length]; trivial.
    rewrite length_app, (H c xs (or_introl eq_refl) Hc). lia.
Qed.

Lemma non_null_count_nonneg (r : row) (cols : list string) :
  0 <= non_null_count r cols.
Proof. unfold non_null_count. lia. Qed.

Lemma reshape_rows_exact (data : list spec_float) (k L : Z) :
  0 < k -> Z.of_nat (List.length data) = k * L ->
  reshape_rows (np_array data) k = Ok {| nd_shape := [k; L]; nd_data := data |}.
Proof.
  intros Hk Hlen. unfold reshape_rows, nd_size. simpl nd_data. rewrite Hlen.
  destruct (Z.ltb_spec k 0) as [? | _]; [lia |].
  destruct (Z.eqb_spec k 0) as [? | _]; [lia |].
  rewrite (Z.mul_comm k L), Z.mod_mul, Z.div_mul by lia. reflexivity.
Qed.

Lemma reshape_rows_zero (a : ndarray) :
  reshape_rows a 0 = Err (ValueError "cannot reshape array").
Proof. reflexivity. Qed.

(** C4: a source row with [k] non-null value columns, each holding a sequence
    of length [L], gives a derived row whose non-null count is [k] and whose
    flat series is the concatenation of the non-null sequences only (nothing
    is filled in for a null column); when [k] is positive the row yields a
    record whose target matrix has shape [(k, L)], and every record the row
    yields has that shape. *)
Theorem target_shape (ts : string) (cols : list string) (r : row) (L : nat)
    (shard : string) (freq : pyvalue) :
  (exists c, r !! ts = Some c) ->
  (forall name, In name cols -> exists c, r !! name = Some c) ->
  (forall name xs, In name cols -> r !! name = Some (Some xs) ->
                   List.length xs = L) ->
  exists pr,
    with_columns ts cols r = Ok pr
    /\ pr_non_null_columns pr = non_null_count r cols
    /\ pr_time_series pr = non_null_values r cols
    /\ (0 < non_null_count r cols ->
        exists rec,
          row_record shard freq pr = Ok rec
          /\ nd_shape (rec_target rec) = [non_null_count r cols; Z.of_nat L]
          /\ nd_data (rec_target rec) = non_null_values r cols)
    /\ (forall rec,
           row_record shard freq pr = Ok rec ->
           nd_shape (rec_target rec) = [non_null_count r cols; Z.of_nat L]).
Proof.
  intros [c Hts] Hcols Hlen.
  destruct (mapM_result_total (col r) cols) as [cells Hcells].
  { apply List.Forall_forall. intros name Hin. destruct (Hcols name Hin) as [c' Hc'].
    exists c'. unfold col. now rewrite Hc'. }
  destruct (with_columns_cells r cols cells Hcells) as [Hn Hv].
  pose proof (non_null_values_length r cols L Hlen) as Hsize.
  eexists. split; [| split; [| split; [| split]]].
  - unfold with_columns. rewrite (col_lookup r ts c Hts). cbn [mbind result_bind].
    rewrite Hcells. cbn [mbind result_bind]. reflexivity.
  - exact Hn.
  - exact Hv.
  - intros Hk. unfold row_record. simpl pr_time_series. simpl pr_non_null_columns.
    rewrite Hn, Hv, (reshape_rows_exact _ _ (Z.of_nat L) Hk Hsize).
    cbn [mbind result_bind]. eexists. repeat split.
  - intros rec. unfold row_record. simpl pr_time_series. simpl pr_non_null_columns.
    rewrite Hn, Hv.
    destruct (Z.eq_dec (non_null_count r cols) 0) as [-> | Hne].
    + rewrite reshape_rows_zero. discriminate.
    + pose proof (non_null_count_nonneg r cols).
      assert (0 < non_null_count r cols) as Hk by lia.
      rewrite (reshape_rows_exact _ _ (Z.of_nat L) Hk Hsize).
      cbn [mbind result_bind]. intros Hrec. inversion Hrec. reflexivity.
Qed.

Lemma target_shape_witness :
  exists pr rec,
    with_columns "ts" ["a"; "b"] (example_row 3) = Ok pr
    /\ row_record "data/a.parquet" (PyStr "H") pr = Ok rec
    /\ nd_shape (rec_target rec) = [1; 2].
Proof.
  destruct (target_shape "ts" ["a"; "b"] (example_row 3) 2 "data/a.parquet"
              (PyStr "H"))
    as (pr & Hpr & _ & _ & Hrec & _).
  - eexists. reflexivity.
  - intros name [<- | [<- | []]]; eexists; reflexivity.
  - intros name xs [<- | [<- | []]] H; vm_compute in H; inversion H; reflexivity.
  - destruct (Hrec ltac:(vm_compute; reflexivity)) as (rec & Hr & Hshape & _).
    exists pr, rec. repeat split; assumption.
Defined.

Lemma non_null_count_all_null (r : row) (cols : list string) :
  (forall name, In name cols -> r !! name = Some None) ->
  non_null_count r cols = 0.
Proof.
  unfold non_null_count. induction cols as [| c cols IH]; intros H;
    cbn [List.filter]; [reflexivity |].
  rewrite (H c (or_introl eq_refl)). apply IH.
  intros name Hin. apply H. now right.
Qed.

(** Every row whose value columns are all null makes the generator raise. *)
Lemma all_null_row_record_fails (ts : string) (cols : list string) (r : row)
    (shard : string) (freq : pyvalue) (pr : polars_row) :
  (forall name, In name cols -> r !! name = Some None) ->
  with_columns ts cols r = Ok pr ->
  row_record shard freq pr = Err (ValueError "cannot reshape array").
Proof.
  intros Hnull Hpr.
  apply with_columns_inv in Hpr as (c & cells & _ & Hcells & ->).
  destruct (with_columns_cells r cols cells Hcells) as [Hn _].
  unfold row_record. simpl pr_non_null_columns.
  rewrite Hn, (non_null_count_all_null r cols Hnull), reshape_rows_zero.
  reflexivity.
Qed.

(** C2: the code does not meet the claim.  For the row whose value columns
    [a] and [b] are both null the non-null count is 0, the reshape into
    [(0, -1)] raises, and a generator run over a file holding that row as its
    second row stops with that error after one record. *)
Theorem all_null_row_raises :
  (exists pr,
      with_columns "ts" ["a"; "b"] null_row = Ok pr
      /\ pr_non_null_columns pr = 0
      /\ pr_time_series pr = []
      /\ row_record "data/a.parquet" (PyStr "H") pr
         = Err (ValueError "cannot reshape array"))
  /\ (exists rec w',
         generator_function "ts" ["a"; "b"] f_zero f_one (PyStr "H")
           ["data/a.parquet"] null_row_world
         = (([rec], Some (ValueError "cannot reshape array")), w')
         /\ record_source rec = example_row 0).
Proof.
  split.
  - eexists. repeat split.
  - eexists. eexists. split; [vm_compute; reflexivity | reflexivity].
Qed.

(** * Fields of the yielded records *)
Lemma Forall2_In_r {A B : Type} (P : A -> B -> Prop) (l : list A) (k : list B)
    (y : B) :
  Forall2 P l k -> In y k -> exists x, In x l /\ P x y.
Proof.
  induction 1 as [| x y' l k Hxy _ IH]; intros Hin; [destruct Hin |].
  destruct Hin as [-> | Hin].
  - exists x. split; [now left | trivial].
  - destruct (IH Hin) as (x' & Hx' & HP). exists x'. split; [now right | trivial].
Qed.

Lemma shard_records_fields (ts : string) (cols : list string)
    (offset end_ : spec_float) (freq : pyvalue) (shard : string) (w w' : world)
    (recs : list record) (err : option exn) :
  shard_records ts cols offset end_ freq shard w = ((recs, err), w') ->
  w' = log_event (ScanParquet shard) w
  /\ Forall (fun rec =>
               rec_freq rec = freq
               /\ fst (rec_item_id rec) = shard
               /\ (exists rows, w_files w !! shard = Some (Parquet rows)
                                /\ In (record_source rec) rows)
               /\ exists c, record_source rec !! ts = Some c
                            /\ rec_start rec = list_first c) recs.
Proof.
  unfold shard_records, scan_parquet.
  destruct (w_files w !! shard) as [[rows |] |] eqn:Hf; cbn [mbind result_bind];
    try (intros H; inversion H; split; [reflexivity | constructor]).
  unfold collect_shard.
  destruct (slice_bounds _ _ _) as [[a len] |]; cbn [mbind result_bind];
    [| intros H; inversion H; split; [reflexivity | constructor]].
  destruct (mapM _ _) as [prs |] eqn:Hm;
    [| intros H; inversion H; split; [reflexivity | constructor]].
  intros H. inversion H as [[Hi Hw]]. split; [reflexivity |].
  pose proof (mapM_with_columns_sources _ _ _ _ Hm) as Hsrc.
  apply mapM_result_Forall2 in Hm.
  apply iter_rows_fields in Hi.
  eapply Forall_impl; [exact Hi |]. simpl.
  intros rec (Hfreq & Hshard & Hstart & Hin).
  repeat split; trivial.
  - exists rows. split; [reflexivity |].
    unfold record_source.
    assert (In (pr_source (snd (rec_item_id rec))) (map pr_source prs)) as Hin'
        by now apply in_map.
    rewrite Hsrc in Hin'. unfold lf_slice in Hin'.
    apply list_elem_of_In in Hin'.
    apply list_elem_of_In.
    eapply subseteq_drop, subseteq_take, Hin'.
  - destruct (Forall2_In_r _ _ _ _ Hm Hin) as (r & _ & Hr).
    apply with_columns_inv in Hr as (c & cells & Hts & _ & Hpr).
    exists c. unfold record_source. rewrite Hstart, Hpr. simpl. split; trivial.
Qed.

Lemma log_event_files (ev : event) (w : world) :
  w_files (log_event ev w) = w_files w.
Proof. reflexivity. Qed.



(** * Validation at construction *)
Ltac io_unfold := unfold mbind, io_bind, mret, io_ret, lift; cbn beta iota.

Lemma build_dataset_train_unfold (self : SimplePolarsDatasetBuilder.t)
    (folder : string) (offset end_ : spec_float) (freq : pyvalue)
    (num_workers : option Z) (w : world) :
  SimplePolarsDatasetBuilder.build_dataset self folder offset end_ freq
    num_workers w
  = match _from_polars (SimplePolarsDatasetBuilder.timestemp_column self)
            (SimplePolarsDatasetBuilder.columns self) offset end_ freq with
    | Err e => (Err e, w)
    | Ok (generator_func, feats) =>
        match iterdir folder w with
        | (Err e, w1) => (Err e, w1)
        | (Ok entries, w1) =>
            match num_proc_of num_workers w1 with
            | (Err e, w2) => (Err e, w2)
            | (Ok num_proc, w2) =>
                match from_generator generator_func feats
                        (parquet_files entries w1) num_proc w2 with
                | (Err e, w3) => (Err e, w3)
                | (Ok ds, w3) =>
                    save_to_disk
                      (set_dataset_name ds (SimplePolarsDatasetBuilder.dataset self))
                      (path_join (SimplePolarsDatasetBuilder.storage_path self)
                                 (SimplePolarsDatasetBuilder.dataset self)) w3
                end
            end
        end
    end.
Proof.
  unfold SimplePolarsDatasetBuilder.build_dataset. io_unfold.
  destruct (_from_polars _ _ _ _ _) as [[g feats] |]; [| reflexivity].
  destruct (iterdir folder w) as [[entries |] w1]; [| reflexivity].
  destruct (num_proc_of num_workers w1) as [[np |] w2]; [| reflexivity].
  destruct (from_generator _ _ _ _ _) as [[ds |] w3]; reflexivity.
Qed.

Lemma build_dataset_eval_as_train (b1 : SimplePolarsDatasetBuilder.t)
    (b2 : SimpleEvalDatasetBuilder.t) (folder : string)
    (offset end_ : spec_float) (freq : pyvalue) (num_workers : option Z) :
  SimplePolarsDatasetBuilder.dataset b1 = SimpleEvalDatasetBuilder.dataset b2 ->
  SimplePolarsDatasetBuilder.timestemp_column b1
  = SimpleEvalDatasetBuilder.timestemp_column b2 ->
  SimplePolarsDatasetBuilder.columns b1 = SimpleEvalDatasetBuilder.columns b2 ->
  SimplePolarsDatasetBuilder.storage_path b1
  = SimpleEvalDatasetBuilder.storage_path b2 ->
  SimpleEvalDatasetBuilder.build_dataset b2 folder offset end_ freq num_workers
  = SimplePolarsDatasetBuilder.build_dataset b1 folder offset end_ freq
      num_workers.
Proof.
  intros Hd Ht Hc Hs.
  unfold SimpleEvalDatasetBuilder.build_dataset,
    SimplePolarsDatasetBuilder.build_dataset.
  now rewrite Hd, Ht, Hc, Hs.
Qed.

(** C5: construction fails, with a validation error, exactly when [offset]
    or [end_] is negative or above 1.0; for a fraction that is a number this
    is exactly "not in [0, 1]"; 0.0 and 1.0 are accepted; and a build with
    such a fraction fails at once, before the directory is listed or any file
    is read: the world, with its log of file-system events, is unchanged. *)
Theorem from_polars_validation (ts : string) (cols : list string)
    (offset end_ : spec_float) (freq : pyvalue) :
  ((exists msg, _from_polars ts cols offset end_ freq = Err (ValueError msg))
   <-> outside_unit offset = true \/ outside_unit end_ = true)
  /\ ((exists e, _from_polars ts cols offset end_ freq = Err e)
      <-> outside_unit offset = true \/ outside_unit end_ = true)
  /\ (offset <> S754_nan ->
      outside_unit offset = negb (float_le f_zero offset && float_le offset f_one))
  /\ (end_ <> S754_nan ->
      outside_unit end_ = negb (float_le f_zero end_ && float_le end_ f_one))
  /\ outside_unit f_zero = false /\ outside_unit f_one = false
  /\ (forall (b1 : SimplePolarsDatasetBuilder.t) (b2 : SimpleEvalDatasetBuilder.t)
             (folder : string) (num_workers : option Z) (w : world),
         outside_unit offset = true \/ outside_unit end_ = true ->
         exists msg,
           SimplePolarsDatasetBuilder.build_dataset b1 folder offset end_ freq
             num_workers w = (Err (ValueError msg), w)
           /\ SimpleEvalDatasetBuilder.build_dataset b2 folder offset end_ freq
                num_workers w = (Err (ValueError msg), w)).
Proof.
  repeat split; try (apply outside_unit_spec; assumption).
  - rewrite from_polars_unfold. intros [msg H].
    destruct (outside_unit offset); [now left |].
    destruct (outside_unit end_); [now right | discriminate].
  - rewrite from_polars_unfold. intros [H | H].
    + rewrite H. eexists. reflexivity.
    + rewrite H. destruct (outside_unit offset); eexists; reflexivity.
  - rewrite from_polars_unfold. intros [e H].
    destruct (outside_unit offset); [now left |].
    destruct (outside_unit end_); [now right | discriminate].
  - rewrite from_polars_unfold. intros [H | H].
    + rewrite H. eexists. reflexivity.
    + rewrite H. destruct (outside_unit offset); eexists; reflexivity.
  - intros b1 b2 folder num_workers w H.
    unfold SimpleEvalDatasetBuilder.build_dataset,
      SimplePolarsDatasetBuilder.build_dataset. io_unfold.
    rewrite !from_polars_unfold.
    destruct H as [H | H]; rewrite H.
    + eexists. split; reflexivity.
    + destruct (outside_unit offset); eexists; split; reflexivity.
Qed.

(** C9: the training builder and the eval builder build in the same way:
    with the same dataset name, timestamp column, value columns and storage
    path, and the same arguments, the two [build_dataset] methods return the
    same result and leave the same world: the same directory listing and file
    reads in the log, and the same dataset saved at the same path. *)
Theorem build_dataset_variants_agree (b1 : SimplePolarsDatasetBuilder.t)
    (b2 : SimpleEvalDatasetBuilder.t) (folder : string)
    (offset end_ : spec_float) (freq : pyvalue) (num_workers : option Z)
    (w : world) :
  SimplePolarsDatasetBuilder.dataset b1 = SimpleEvalDatasetBuilder.dataset b2 ->
  SimplePolarsDatasetBuilder.timestemp_column b1
  = SimpleEvalDatasetBuilder.timestemp_column b2 ->
  SimplePolarsDatasetBuilder.columns b1 = SimpleEvalDatasetBuilder.columns b2 ->
  SimplePolarsDatasetBuilder.storage_path b1
  = SimpleEvalDatasetBuilder.storage_path b2 ->
  SimplePolarsDatasetBuilder.build_dataset b1 folder offset end_ freq
    num_workers w
  = SimpleEvalDatasetBuilder.build_dataset b2 folder offset end_ freq
      num_workers w.
Proof.
  intros Hd Ht Hc Hs.
  now rewrite (build_dataset_eval_as_train b1 b2 folder offset end_ freq
                 num_workers Hd Ht Hc Hs).
Qed.

Lemma build_dataset_variants_agree_witness :
  SimplePolarsDatasetBuilder.build_dataset
    (train_builder (example_args f_0_8) example_world) "data" f_zero f_0_8
    (PyStr "H") (Some 2) example_world
  = SimpleEvalDatasetBuilder.build_dataset example_eval_twin "data" f_zero f_0_8
      (PyStr "H") (Some 2) example_world.
Proof.
  apply (build_dataset_variants_agree
           (train_builder (example_args f_0_8) example_world) example_eval_twin);
    reflexivity.
Defined.


(** * Loading *)
Lemma load_dataset_train_unfold {T : Type} (self : SimplePolarsDatasetBuilder.t)
    (transform_map : gmap string (kwargs -> T)) (w : world) :
  SimplePolarsDatasetBuilder.load_dataset self transform_map w
  = match w_saved w !! path_join (SimplePolarsDatasetBuilder.storage_path self)
                                (SimplePolarsDatasetBuilder.dataset self) with
    | None =>
        (Err (FileNotFoundError
                (path_join (SimplePolarsDatasetBuilder.storage_path self) (SimplePolarsDatasetBuilder.dataset self))),
         log_event (LoadFromDisk
                      (path_join (SimplePolarsDatasetBuilder.storage_path self) (SimplePolarsDatasetBuilder.dataset self)))
                   w)
    | Some indexer =>
        let w1 :=
          log_event (LoadFromDisk
                       (path_join (SimplePolarsDatasetBuilder.storage_path self) (SimplePolarsDatasetBuilder.dataset self)))
                    w in
        match transform_map !! SimplePolarsDatasetBuilder.dataset self with
        | None => (Err (KeyError (SimplePolarsDatasetBuilder.dataset self)), w1)
        | Some factory =>
            (Ok {| tsd_indexer := indexer;
                   tsd_transform := factory [];
                   tsd_dataset_weight := SimplePolarsDatasetBuilder.weight self;
                   tsd_sample_time_series :=
                     SimplePolarsDatasetBuilder.sample_time_series self |}, w1)
        end
    end.
Proof.
  unfold SimplePolarsDatasetBuilder.load_dataset, load_from_disk, getitem.
  io_unfold.
  destruct (w_saved w !! _) as [indexer |]; [| reflexivity].
  destruct (transform_map !! _) as [factory |]; reflexivity.
Qed.

Lemma load_dataset_eval_unfold {T : Type} (self : SimpleEvalDatasetBuilder.t)
    (transform_map : gmap string (kwargs -> T)) (w : world) :
  SimpleEvalDatasetBuilder.load_dataset self transform_map w
  = match w_saved w !! path_join (SimpleEvalDatasetBuilder.storage_path self)
                                (SimpleEvalDatasetBuilder.dataset self) with
    | None =>
        (Err (FileNotFoundError
                (path_join (SimpleEvalDatasetBuilder.storage_path self) (SimpleEvalDatasetBuilder.dataset self))),
         log_event (LoadFromDisk
                      (path_join (SimpleEvalDatasetBuilder.storage_path self) (SimpleEvalDatasetBuilder.dataset self)))
                   w)
    | Some indexer =>
        let w1 :=
          log_event (LoadFromDisk
                       (path_join (SimpleEvalDatasetBuilder.storage_path self) (SimpleEvalDatasetBuilder.dataset self)))
                    w in
        match transform_map !! SimpleEvalDatasetBuilder.dataset self with
        | None => (Err (KeyError (SimpleEvalDatasetBuilder.dataset self)), w1)
        | Some factory =>
            (Ok {| evd_windows := SimpleEvalDatasetBuilder.windows self;
                   evd_indexer := indexer;
                   evd_transform :=
                     factory
                       [("offset", SimpleEvalDatasetBuilder.offset self);
                        ("distance", SimpleEvalDatasetBuilder.distance self);
                        ("prediction_length",
                         SimpleEvalDatasetBuilder.prediction_length self);
                        ("context_length",
                         SimpleEvalDatasetBuilder.context_length self);
                        ("patch_size", SimpleEvalDatasetBuilder.patch_size self)] |},
             w1)
        end
    end.
Proof.
  unfold SimpleEvalDatasetBuilder.load_dataset, load_from_disk, getitem.
  io_unfold.
  destruct (w_saved w !! _) as [indexer |]; [| reflexivity].
  destruct (transform_map !! _) as [factory |]; reflexivity.
Qed.




(** * Whole builds *)
Lemma same_store_refl (w : world) : same_store w w.
Proof. repeat split. Qed.

Lemma same_store_log (ev : event) (w : world) : same_store w (log_event ev w).
Proof. repeat split. Qed.

Lemma same_store_trans (w1 w2 w3 : world) :
  same_store w1 w2 -> same_store w2 w3 -> same_store w1 w3.
Proof.
  unfold same_store. intros (? & ? & ? & ? & ?) (? & ? & ? & ? & ?).
  repeat split; congruence.
Qed.

Lemma file_ok_inv (ts : string) (cols : list string) (w : world) (p : string) :
  file_ok ts cols w p = true ->
  exists rows,
    w_files w !! p = Some (Parquet rows)
    /\ Z.of_nat (List.length rows) < 2 ^ 53
    /\ Forall (fun r => row_ok ts cols r = true) rows.
Proof.
  unfold file_ok. destruct (w_files w !! p) as [[rows |] |]; try discriminate.
  intros H. apply andb_prop in H as [Hn Hok]. exists rows.
  repeat split.
  - now apply Z.ltb_lt.
  - apply List.Forall_forall. now apply forallb_forall.
Qed.

Lemma generator_function_ok (ts : string) (cols : list string)
    (offset end_ : spec_float) (freq : pyvalue) (shards : list string) :
  in_unit offset = true -> in_unit end_ = true -> float_le offset end_ = true ->
  forall w : world,
    forallb (file_ok ts cols w) shards = true ->
    exists recs w',
      generator_function ts cols offset end_ freq shards w = ((recs, None), w')
      /\ same_store w w' /\ w_log w' = w_log w ++ map ScanParquet shards
      /\ map record_source recs
         = flat_map (fun p => selected_rows offset end_ (file_rows w p)) shards.
Proof.
  intros Ho He Hle. induction shards as [| shard rest IH]; intros w Hok.
  - exists [], w. repeat split. simpl. now rewrite app_nil_r.
  - cbn [forallb] in Hok. apply andb_prop in Hok as [Hshard Hrest].
    destruct (file_ok_inv ts cols w shard Hshard) as (rows & Hf & Hn & Hrows).
    destruct (slice_bounds_ok (Z.of_nat (List.length rows)) offset end_
                ltac:(lia) Ho He Hle)
      as (a & b & _ & _ & Ha0 & Hab & Hbn & Hs).
    destruct (shard_records_total ts cols offset end_ freq shard w rows a b
                Hf Hs) as [recs1 Hrecs1].
    { rewrite lf_slice_take_drop by lia. apply Forall_take, Forall_drop, Hrows. }
    pose proof (shard_records_sources ts cols offset end_ freq shard w _ rows
                  recs1 a b Hf Hs Hrecs1) as Hsrc1.
    destruct (IH (log_event (ScanParquet shard) w)) as (recs2 & w2 & Hg & Hst & Hlog & Hsrc2).
    { exact Hrest. }
    exists (recs1 ++ recs2), w2.
    cbn [generator_function]. rewrite Hrecs1, Hg.
    repeat split; try apply Hst.
    + rewrite Hlog. simpl. now rewrite <- app_assoc.
    + rewrite map_app, Hsrc1, Hsrc2. cbn [flat_map]. f_equal.
      unfold selected_rows, file_rows. now rewrite Hf, Hs.
Qed.

Lemma num_proc_of_ok (num_workers : option Z) (w : world) :
  exists n, num_proc_of num_workers w = (Ok n, w).
Proof.
  unfold num_proc_of, cpu_count.
  destruct num_workers as [n |]; [destruct (n =? 0) |]; eexists; reflexivity.
Qed.

Lemma build_dataset_train_ok (self : SimplePolarsDatasetBuilder.t)
    (folder : string) (offset end_ : spec_float) (freq : pyvalue)
    (num_workers : option Z) (w : world) (entries : list string) :
  w_dirs w !! folder = Some entries ->
  in_unit offset = true -> in_unit end_ = true -> float_le offset end_ = true ->
  forallb (file_ok (SimplePolarsDatasetBuilder.timestemp_column self)
                   (SimplePolarsDatasetBuilder.columns self) w)
          (parquet_files entries w) = true ->
  exists recs w',
    SimplePolarsDatasetBuilder.build_dataset self folder offset end_ freq
      num_workers w = (Ok tt, w')
    /\ w_dirs w' = w_dirs w /\ w_files w' = w_files w
    /\ w_custom_data_path w' = w_custom_data_path w
    /\ w_saved w'
       = <[path_join (SimplePolarsDatasetBuilder.storage_path self)
                     (SimplePolarsDatasetBuilder.dataset self)
           := {| ds_features := features;
                 ds_name := SimplePolarsDatasetBuilder.dataset self;
                 ds_records := recs |}]> (w_saved w)
    /\ map record_source recs
       = flat_map (fun p => selected_rows offset end_ (file_rows w p))
                  (parquet_files entries w).
Proof.
  intros Hdir Ho He Hle Hok.
  rewrite build_dataset_train_unfold, (from_polars_in_unit _ _ _ _ _ Ho He).
  unfold iterdir. rewrite Hdir.
  set (w1 := log_event (ListDir folder) w).
  destruct (num_proc_of_ok num_workers w1) as [np ->].
  change (parquet_files entries w1) with (parquet_files entries w).
  destruct (generator_function_ok
              (SimplePolarsDatasetBuilder.timestemp_column self)
              (SimplePolarsDatasetBuilder.columns self) offset end_ freq
              (parquet_files entries w) Ho He Hle w1 Hok)
    as (recs & w2 & Hg & (Hd & Hf & Hsv & Hc & _) & _ & Hsrc).
  unfold from_generator. rewrite Hg.
  exists recs. eexists. split; [reflexivity |].
  unfold save_to_disk, log_event, set_dataset_name. simpl.
  rewrite Hd, Hf, Hsv, Hc. repeat split. exact Hsrc.
Qed.

Lemma selected_rows_train (ratio : spec_float) (rows : list row) :
  Z.of_nat (List.length rows) < 2 ^ 53 -> in_unit ratio = true ->
  selected_rows f_zero ratio rows = take (split_index ratio rows) rows.
Proof.
  intros Hn Hr. unfold selected_rows, split_index, slice_bounds.
  rewrite int_scale_zero by lia.
  destruct (int_scale_range (Z.of_nat (List.length rows)) ratio ltac:(lia) Hr)
    as (s & -> & Hs0 & Hsn).
  cbn [mbind result_bind]. rewrite lf_slice_take_drop by lia.
  simpl drop. f_equal. lia.
Qed.

Lemma selected_rows_eval (ratio : spec_float) (rows : list row) :
  Z.of_nat (List.length rows) < 2 ^ 53 -> in_unit ratio = true ->
  selected_rows ratio f_one rows = drop (split_index ratio rows) rows.
Proof.
  intros Hn Hr. unfold selected_rows, split_index, slice_bounds.
  rewrite int_scale_one by lia.
  destruct (int_scale_range (Z.of_nat (List.length rows)) ratio ltac:(lia) Hr)
    as (s & -> & Hs0 & Hsn).
  cbn [mbind result_bind]. rewrite lf_slice_take_drop by lia.
  apply take_ge. rewrite length_drop. lia.
Qed.

Lemma string_length_append (a b : string) :
  String.length (a +:+ b) = (String.length a + String.length b)%nat.
Proof. induction a as [| c a IH]; simpl; [reflexivity | now rewrite IH]. Qed.

Lemma path_join_cases (base child : string) :
  path_join base child
  = if is_absolute child then child else base +:+ "/" +:+ child.
Proof.
  destruct child as [| c child]; [reflexivity |].
  destruct c as [[] [] [] [] [] [] [] []]; reflexivity.
Qed.

Lemma is_absolute_append (name suffix : string) :
  is_absolute suffix = false ->
  is_absolute (name +:+ suffix) = is_absolute name.
Proof. destruct name; [intros H; exact H | reflexivity]. Qed.

Lemma path_join_eval_ne (base name : string) :
  path_join base (name +:+ "_eval") <> path_join base name.
Proof.
  intros H. apply (f_equal String.length) in H. revert H.
  rewrite !path_join_cases, is_absolute_append by reflexivity.
  destruct (is_absolute name); rewrite ?string_length_append; simpl; lia.
Qed.

Lemma build_datasets_unfold (args : Args) (w : world) :
  build_datasets args w
  = match SimplePolarsDatasetBuilder.build_dataset (train_builder args w)
            (folder_path args) f_zero (split_ratio args) (freq args) None w with
    | (Err e, w1) => (Err e, w1)
    | (Ok _, w1) =>
        if py_eq_one (freq args) then (Ok tt, w1)
        else
          SimpleEvalDatasetBuilder.build_dataset
            {| SimpleEvalDatasetBuilder.dataset := dataset_name args +:+ "_eval";
               SimpleEvalDatasetBuilder.timestemp_column := timestemp_column args;
               SimpleEvalDatasetBuilder.columns := columns args;
               SimpleEvalDatasetBuilder.offset := None;
               SimpleEvalDatasetBuilder.windows := None;
               SimpleEvalDatasetBuilder.distance := None;
               SimpleEvalDatasetBuilder.prediction_length := None;
               SimpleEvalDatasetBuilder.context_length := None;
               SimpleEvalDatasetBuilder.patch_size := None;
               SimpleEvalDatasetBuilder.storage_path := w_custom_data_path w1 |}
            (folder_path args) (split_ratio args) f_one (freq args) None w1
    end.
Proof.
  unfold build_datasets. io_unfold.
  destruct (SimplePolarsDatasetBuilder.build_dataset _ _ _ _ _ _ _)
    as [[[] |] w1]; [| reflexivity].
  destruct (py_eq_one (freq args)); reflexivity.
Qed.

Lemma file_ok_files (ts : string) (cols : list string) (w w' : world) (p : string) :
  w_files w' = w_files w -> file_ok ts cols w' p = file_ok ts cols w p.
Proof. unfold file_ok. now intros ->. Qed.

Lemma file_rows_files (w w' : world) (p : string) :
  w_files w' = w_files w -> file_rows w' p = file_rows w p.
Proof. unfold file_rows. now intros ->. Qed.

Lemma parquet_files_files (entries : list string) (w w' : world) :
  w_files w' = w_files w -> parquet_files entries w' = parquet_files entries w.
Proof. unfold parquet_files, is_file. now intros ->. Qed.

Lemma flat_map_ext_In {A B : Type} (f g : A -> list B) (l : list A) :
  (forall x, In x l -> f x = g x) -> flat_map f l = flat_map g l.
Proof.
  induction l as [| x l IH]; intros H; simpl; [reflexivity |].
  rewrite (H x (or_introl eq_refl)), IH; [reflexivity |].
  intros y Hy. apply H. now right.
Qed.

Lemma forallb_ext_In {A : Type} (f g : A -> bool) (l : list A) :
  (forall x, f x = g x) -> forallb f l = forallb g l.
Proof.
  intros H. induction l as [| x l IH]; simpl; [reflexivity |].
  now rewrite H, IH.
Qed.

(** C6: a run of [build_datasets] whose [freq] is not the number 1.0 (a
    string, as the command line gives) first builds the training split with
    the fractions [0.0] and [split_ratio], then the eval split through an eval
    builder named [dataset_name ++ "_eval"] whose six windowing fields are all
    unset, with the fractions [split_ratio] and [1.0].  When the folder lists,
    the ratio lies in [0, 1] and every listed parquet file can be read and
    reshaped, the run succeeds and saves both datasets under the storage
    path: of each file's rows the training dataset holds those before index
    [int(rows * split_ratio)] and the eval dataset those from that index on. *)
Theorem build_datasets_split (args : Args) (w : world) (entries : list string) :
  w_dirs w !! folder_path args = Some entries ->
  in_unit (split_ratio args) = true ->
  py_eq_one (freq args) = false ->
  forallb (file_ok (timestemp_column args) (columns args) w)
          (parquet_files entries w) = true ->
  build_datasets args w
  = match SimplePolarsDatasetBuilder.build_dataset (train_builder args w)
            (folder_path args) f_zero (split_ratio args) (freq args) None w with
    | (Err e, w1) => (Err e, w1)
    | (Ok _, w1) =>
        SimpleEvalDatasetBuilder.build_dataset
          {| SimpleEvalDatasetBuilder.dataset := dataset_name args +:+ "_eval";
             SimpleEvalDatasetBuilder.timestemp_column := timestemp_column args;
             SimpleEvalDatasetBuilder.columns := columns args;
             SimpleEvalDatasetBuilder.offset := None;
             SimpleEvalDatasetBuilder.windows := None;
             SimpleEvalDatasetBuilder.distance := None;
             SimpleEvalDatasetBuilder.prediction_length := None;
             SimpleEvalDatasetBuilder.context_length := None;
             SimpleEvalDatasetBuilder.patch_size := None;
             SimpleEvalDatasetBuilder.storage_path := w_custom_data_path w1 |}
          (folder_path args) (split_ratio args) f_one (freq args) None w1
    end
  /\ exists (w' : world) (train eval_ : list record),
       build_datasets args w = (Ok tt, w')
       /\ w_saved w' !! path_join (w_custom_data_path w) (dataset_name args)
          = Some {| ds_features := features;
                    ds_name := dataset_name args;
                    ds_records := train |}
       /\ w_saved w' !! path_join (w_custom_data_path w)
                                  (dataset_name args +:+ "_eval")
          = Some {| ds_features := features;
                    ds_name := dataset_name args +:+ "_eval";
                    ds_records := eval_ |}
       /\ map record_source train
          = flat_map (fun p => take (split_index (split_ratio args) (file_rows w p))
                                    (file_rows w p))
                     (parquet_files entries w)
       /\ map record_source eval_
          = flat_map (fun p => drop (split_index (split_ratio args) (file_rows w p))
                                    (file_rows w p))
                     (parquet_files entries w).
Proof.
  intros Hdir Hsr Hfreq Hok.
  rewrite build_datasets_unfold, Hfreq. split; [reflexivity |].
  assert (forall p, In p (parquet_files entries w) ->
                    Z.of_nat (List.length (file_rows w p)) < 2 ^ 53) as Hsmall.
  { intros p Hp. rewrite forallb_forall in Hok.
    destruct (file_ok_inv _ _ _ _ (Hok p Hp)) as (rows & Hf & Hn & _).
    unfold file_rows. now rewrite Hf. }
  destruct (build_dataset_train_ok (train_builder args w) (folder_path args)
              f_zero (split_ratio args) (freq args) None w entries Hdir
              in_unit_zero Hsr (in_unit_le_zero _ Hsr) Hok)
    as (train & w1 & Hb1 & Hd1 & Hf1 & Hc1 & Hs1 & Hsrc1).
  rewrite Hb1.
  rewrite (build_dataset_eval_as_train
             {| SimplePolarsDatasetBuilder.dataset := dataset_name args +:+ "_eval";
                SimplePolarsDatasetBuilder.timestemp_column := timestemp_column args;
                SimplePolarsDatasetBuilder.columns := columns args;
                SimplePolarsDatasetBuilder.weight := f_one;
                SimplePolarsDatasetBuilder.sample_time_series := Some NONE;
                SimplePolarsDatasetBuilder.storage_path := w_custom_data_path w1 |})
    by reflexivity.
  destruct (build_dataset_train_ok
              {| SimplePolarsDatasetBuilder.dataset := dataset_name args +:+ "_eval";
                 SimplePolarsDatasetBuilder.timestemp_column := timestemp_column args;
                 SimplePolarsDatasetBuilder.columns := columns args;
                 SimplePolarsDatasetBuilder.weight := f_one;
                 SimplePolarsDatasetBuilder.sample_time_series := Some NONE;
                 SimplePolarsDatasetBuilder.storage_path := w_custom_data_path w1 |}
              (folder_path args) (split_ratio args) f_one (freq args) None w1
              entries)
    as (eval_ & w2 & Hb2 & Hd2 & Hf2 & Hc2 & Hs2 & Hsrc2).
  { now rewrite Hd1. }
  { exact Hsr. }
  { exact in_unit_one. }
  { exact (in_unit_le_one _ Hsr). }
  { rewrite (parquet_files_files entries w w1 Hf1).
    rewrite <- Hok. apply forallb_ext_In. intros p. now apply file_ok_files. }
  rewrite Hb2. exists w2, train, eval_.
  simpl in Hs1, Hs2. rewrite Hc1 in Hs2.
  split; [reflexivity |]. split; [| split; [| split]].
  - rewrite Hs2, lookup_insert_ne by apply path_join_eval_ne.
    rewrite Hs1. apply lookup_insert_eq.
  - rewrite Hs2. apply lookup_insert_eq.
  - rewrite Hsrc1. apply flat_map_ext_In. intros p Hp.
    apply selected_rows_train; auto.
  - rewrite Hsrc2, (parquet_files_files entries w w1 Hf1).
    apply flat_map_ext_In. intros p Hp.
    rewrite (file_rows_files w w1 p Hf1). apply selected_rows_eval; auto.
Qed.

Lemma build_datasets_split_witness :
  exists train eval_ : list record,
    w_saved built_world !! "store/ds"
    = Some {| ds_features := features; ds_name := "ds"; ds_records := train |}
    /\ w_saved built_world !! "store/ds_eval"
       = Some {| ds_features := features; ds_name := "ds_eval";
                 ds_records := eval_ |}
    /\ map record_source train = map example_row [0; 1; 2; 3; 4; 5; 6; 7]
    /\ map record_source eval_ = map example_row [8; 9].
Proof.
  destruct (build_datasets_split (example_args f_0_8) example_world
              ["data/a.parquet"; "data/notes.txt"; "data/sub.parquet"])
    as (_ & w' & train & eval_ & Hb & Ht & He & Hst & Hse).
  - reflexivity.
  - reflexivity.
  - reflexivity.
  - vm_compute. reflexivity.
  - exists train, eval_. unfold built_world. rewrite Hb.
    split; [exact Ht |]. split; [exact He |].
    rewrite Hst, Hse. split; vm_compute; reflexivity.
Defined.

(** C1: the code does not meet the claim.  The early return of
    [build_datasets] tests [freq], not [split_ratio]: with
    [split_ratio = 1.0] and the command line's string [freq] the eval builder
    still runs and saves a dataset, an empty one, named ["ds_eval"]; the
    return is taken, whatever the ratio, only when [freq] is the number 1.0. *)
Theorem split_ratio_one_still_builds_eval :
  py_eq_one (freq (example_args f_one)) = false
  /\ w_saved (snd (build_datasets
                     {| dataset_name := "ds"; folder_path := "data";
                        timestemp_column := "ts"; columns := ["a"; "b"];
                        split_ratio := f_0_8; freq := PyFloat f_one |}
                     example_world)) !! "store/ds_eval" = None
  /\ fst (build_datasets (example_args f_one) example_world) = Ok tt
  /\ w_saved (snd (build_datasets (example_args f_one) example_world))
       !! "store/ds_eval"
     = Some {| ds_features := features; ds_name := "ds_eval"; ds_records := [] |}
  /\ w_log (snd (build_datasets (example_args f_one) example_world))
     = [ListDir "data"; ScanParquet "data/a.parquet"; SaveToDisk "store/ds";
        ListDir "data"; ScanParquet "data/a.parquet";
        SaveToDisk "store/ds_eval"].
Proof. repeat split; vm_compute; reflexivity. Qed.

(** * Every run of the generator and of a build *)

Lemma generator_function_run (ts : string) (cols : list string)
    (offset end_ : spec_float) (freq : pyvalue) (shards : list string) :
  forall (w w' : world) (recs : list record) (err : option exn),
    generator_function ts cols offset end_ freq shards w = ((recs, err), w') ->
    same_store w w'
    /\ exists k : nat,
         w_log w' = w_log w ++ map ScanParquet (take k shards)
         /\ (err = None -> take k shards = shards).
Proof.
  induction shards as [| shard rest IH]; intros w w' recs err H; simpl in H.
  - inversion H; subst. split; [apply same_store_refl |].
    exists 0%nat. split; [now rewrite app_nil_r | reflexivity].
  - destruct (shard_records ts cols offset end_ freq shard w)
      as [[recs1 err1] w1] eqn:Hs.
    apply shard_records_fields in Hs as [-> _].
    destruct err1 as [e |].
    + inversion H; subst. split; [apply same_store_log |].
      exists 1%nat. split; [reflexivity | discriminate].
    + destruct (generator_function ts cols offset end_ freq rest _)
        as [[recs2 err2] w2] eqn:Hg.
      apply IH in Hg as (Hst & k & Hlog & Hk). inversion H; subst.
      split; [exact (same_store_trans _ _ _ (same_store_log _ w) Hst) |].
      exists (S k). split.
      * rewrite Hlog. simpl. now rewrite <- app_assoc.
      * intros Hnone. simpl. f_equal. now apply Hk.
Qed.

Lemma build_dataset_train_cases (self : SimplePolarsDatasetBuilder.t)
    (folder : string) (offset end_ : spec_float) (freq : pyvalue)
    (num_workers : option Z) (w : world) :
  outside_unit offset = false -> outside_unit end_ = false ->
  SimplePolarsDatasetBuilder.build_dataset self folder offset end_ freq
    num_workers w
  = match w_dirs w !! folder with
    | None => (Err (FileNotFoundError folder), log_event (ListDir folder) w)
    | Some entries =>
        match generator_function
                (SimplePolarsDatasetBuilder.timestemp_column self)
                (SimplePolarsDatasetBuilder.columns self) offset end_ freq
                (parquet_files entries w) (log_event (ListDir folder) w) with
        | ((_, Some e), w2) => (Err (DatasetGenerationError e), w2)
        | ((recs, None), w2) =>
            save_to_disk
              {| ds_features := features;
                 ds_name := SimplePolarsDatasetBuilder.dataset self;
                 ds_records := recs |}
              (path_join (SimplePolarsDatasetBuilder.storage_path self)
                         (SimplePolarsDatasetBuilder.dataset self)) w2
        end
    end.
Proof.
  intros Ho He.
  rewrite build_dataset_train_unfold, from_polars_unfold, Ho, He.
  unfold iterdir.
  destruct (w_dirs w !! folder) as [entries |]; [| reflexivity].
  destruct (num_proc_of_ok num_workers (log_event (ListDir folder) w)) as [np ->].
  change (parquet_files entries (log_event (ListDir folder) w))
    with (parquet_files entries w).
  unfold from_generator.
  destruct (generator_function _ _ _ _ _ _ _) as [[recs [e |]] w2]; reflexivity.
Qed.

Lemma build_dataset_eval_twin (b : SimpleEvalDatasetBuilder.t) (folder : string)
    (offset end_ : spec_float) (freq : pyvalue) (num_workers : option Z) :
  SimpleEvalDatasetBuilder.build_dataset b folder offset end_ freq num_workers
  = SimplePolarsDatasetBuilder.build_dataset (as_train b) folder offset end_
      freq num_workers.
Proof. now apply build_dataset_eval_as_train. Qed.

Lemma build_dataset_invalid (self : SimplePolarsDatasetBuilder.t)
    (folder : string) (offset end_ : spec_float) (freq : pyvalue)
    (num_workers : option Z) (w : world) :
  outside_unit offset || outside_unit end_ = true ->
  exists msg,
    SimplePolarsDatasetBuilder.build_dataset self folder offset end_ freq
      num_workers w = (Err (ValueError msg), w).
Proof.
  intros H. rewrite build_dataset_train_unfold, from_polars_unfold.
  destruct (outside_unit offset); [eexists; reflexivity |].
  simpl in H. rewrite H. eexists; reflexivity.
Qed.

(** What a build leaves behind, whatever its outcome. *)
Lemma build_dataset_train_effect (self : SimplePolarsDatasetBuilder.t)
    (folder : string) (offset end_ : spec_float) (freq : pyvalue)
    (num_workers : option Z) (w : world) :
  let out := SimplePolarsDatasetBuilder.build_dataset self folder offset end_
               freq num_workers w in
  w_dirs (snd out) = w_dirs w /\ w_files (snd out) = w_files w
  /\ w_custom_data_path (snd out) = w_custom_data_path w
  /\ w_cpu_count (snd out) = w_cpu_count w
  /\ match fst out with
     | Err _ => w_saved (snd out) = w_saved w
     | Ok _ =>
         exists recs,
           w_saved (snd out)
           = <[path_join (SimplePolarsDatasetBuilder.storage_path self)
                         (SimplePolarsDatasetBuilder.dataset self)
               := {| ds_features := features;
                     ds_name := SimplePolarsDatasetBuilder.dataset self;
                     ds_records := recs |}]> (w_saved w)
     end.
Proof.
  cbn zeta.
  destruct (outside_unit offset || outside_unit end_) eqn:Hout.
  { destruct (build_dataset_invalid self folder offset end_ freq num_workers w
                Hout) as [msg ->]. repeat split. }
  apply orb_false_elim in Hout as [Ho He].
  rewrite (build_dataset_train_cases self folder offset end_ freq num_workers w
             Ho He).
  destruct (w_dirs w !! folder) as [entries |]; [| repeat split].
  destruct (generator_function _ _ _ _ _ _ _) as [[recs err] w2] eqn:Hg.
  apply generator_function_run in Hg as ((Hd & Hf & Hs & Hc & Hn) & _).
  simpl in Hd, Hf, Hs, Hc, Hn.
  destruct err as [e |]; simpl.
  - repeat split; assumption.
  - repeat split; try assumption. exists recs. now rewrite Hs.
Qed.

Lemma parquet_files_In (entries : list string) (w : world) (p : string) :
  In p (parquet_files entries w) ->
  In p entries /\ is_file p w = true /\ path_suffix p = ".parquet".
Proof.
  unfold parquet_files. intros H. apply filter_In in H as [Hin Hp].
  apply andb_prop in Hp as [Hfile Hsuf].
  repeat split; trivial. now apply String.eqb_eq.
Qed.

Lemma build_dataset_train_log (self : SimplePolarsDatasetBuilder.t)
    (folder : string) (offset end_ : spec_float) (freq : pyvalue)
    (num_workers : option Z) (w : world) :
  let out := SimplePolarsDatasetBuilder.build_dataset self folder offset end_
               freq num_workers w in
  w_log (snd out) = w_log w
  \/ (w_dirs w !! folder = None /\ w_log (snd out) = w_log w ++ [ListDir folder])
  \/ exists entries k,
       w_dirs w !! folder = Some entries
       /\ w_log (snd out)
          = w_log w ++ ListDir folder
              :: map ScanParquet (take k (parquet_files entries w))
              ++ match fst out with
                 | Ok _ =>
                     [SaveToDisk
                        (path_join (SimplePolarsDatasetBuilder.storage_path self)
                                   (SimplePolarsDatasetBuilder.dataset self))]
                 | Err _ => []
                 end
       /\ (is_Ok_result (fst out) = true ->
           take k (parquet_files entries w) = parquet_files entries w).
Proof.
  cbn zeta.
  destruct (outside_unit offset || outside_unit end_) eqn:Hout.
  { destruct (build_dataset_invalid self folder offset end_ freq num_workers w
                Hout) as [msg ->]. now left. }
  apply orb_false_elim in Hout as [Ho He].
  rewrite (build_dataset_train_cases self folder offset end_ freq num_workers w
             Ho He).
  destruct (w_dirs w !! folder) as [entries |]; [| right; left; now split].
  right. right. exists entries.
  destruct (generator_function _ _ _ _ _ _ _) as [[recs err] w2] eqn:Hg.
  apply generator_function_run in Hg as (_ & k & Hlog & Hk).
  exists k. split; [reflexivity |]. simpl in Hlog.
  destruct err as [e |]; simpl.
  - rewrite Hlog, app_nil_r, <- app_assoc. split; [reflexivity | discriminate].
  - rewrite Hlog, <- !app_assoc. split; [reflexivity | intros _; now apply Hk].
Qed.

(** * Further properties of the builders *)

(** X1: when the fractions pass validation and the source folder does not
    exist, [build_dataset] of either builder fails with the file-not-found
    error of the directory listing; the listing is the only access made and
    nothing is saved. *)
Theorem build_dataset_missing_folder (b1 : SimplePolarsDatasetBuilder.t)
    (b2 : SimpleEvalDatasetBuilder.t) (folder : string)
    (offset end_ : spec_float) (freq : pyvalue) (num_workers : option Z)
    (w : world) :
  outside_unit offset = false -> outside_unit end_ = false ->
  w_dirs w !! folder = None ->
  SimplePolarsDatasetBuilder.build_dataset b1 folder offset end_ freq
    num_workers w
  = (Err (FileNotFoundError folder), log_event (ListDir folder) w)
  /\ SimpleEvalDatasetBuilder.build_dataset b2 folder offset end_ freq
       num_workers w
     = (Err (FileNotFoundError folder), log_event (ListDir folder) w).
Proof.
  intros Ho He Hdir.
  rewrite build_dataset_eval_twin, !build_dataset_train_cases by assumption.
  rewrite Hdir. split; reflexivity.
Qed.

Lemma build_dataset_missing_folder_witness :
  SimplePolarsDatasetBuilder.build_dataset
    (train_builder (example_args f_0_8) example_world) "nowhere" f_zero f_0_8
    (PyStr "H") None example_world
  = (Err (FileNotFoundError "nowhere"), log_event (ListDir "nowhere") example_world).
Proof.
  destruct (build_dataset_missing_folder
              (train_builder (example_args f_0_8) example_world)
              example_eval_twin "nowhere" f_zero f_0_8 (PyStr "H") None
              example_world) as [H _]; [reflexivity .. | exact H].
Defined.


(** X3: the only files a build reads are entries of the source folder that
    are regular files with suffix [".parquet"]: every parquet scan a build
    adds to the access log is of such an entry. *)
Theorem build_dataset_scans_only_parquet (b1 : SimplePolarsDatasetBuilder.t)
    (b2 : SimpleEvalDatasetBuilder.t) (folder : string)
    (offset end_ : spec_float) (freq : pyvalue) (num_workers : option Z)
    (w : world) (p : string) :
  In (ScanParquet p)
     (w_log (snd (SimplePolarsDatasetBuilder.build_dataset b1 folder offset end_
                    freq num_workers w)))
  \/ In (ScanParquet p)
        (w_log (snd (SimpleEvalDatasetBuilder.build_dataset b2 folder offset
                       end_ freq num_workers w))) ->
  In (ScanParquet p) (w_log w)
  \/ exists entries,
       w_dirs w !! folder = Some entries
       /\ In p entries /\ is_file p w = true /\ path_suffix p = ".parquet".
Proof.
  assert (forall b : SimplePolarsDatasetBuilder.t,
             In (ScanParquet p)
                (w_log (snd (SimplePolarsDatasetBuilder.build_dataset b folder
                               offset end_ freq num_workers w))) ->
             In (ScanParquet p) (w_log w)
             \/ exists entries,
                  w_dirs w !! folder = Some entries
                  /\ In p entries /\ is_file p w = true
                  /\ path_suffix p = ".parquet") as Hgen.
  { intros b Hin.
    destruct (build_dataset_train_log b folder offset end_ freq num_workers w)
      as [Hlog | [[_ Hlog] | (entries & k & Hdir & Hlog & _)]].
    - left. now rewrite <- Hlog.
    - rewrite Hlog in Hin. apply in_app_or in Hin as [Hin | [Hin | []]];
        [now left | discriminate].
    - rewrite Hlog in Hin. apply in_app_or in Hin as [Hin | Hin]; [now left |].
      right. exists entries. split; [exact Hdir |].
      destruct Hin as [Hin | Hin]; [discriminate |].
      apply in_app_or in Hin as [Hin | Hin].
      + apply in_map_iff in Hin as (q & Hq & Hin). inversion Hq; subst q.
        apply parquet_files_In.
        apply list_elem_of_In. apply list_elem_of_In in Hin.
        eapply subseteq_take, Hin.
      + destruct (fst _); [destruct Hin as [Hin | []]; discriminate | destruct Hin]. }
  intros [Hin | Hin].
  - now apply (Hgen b1).
  - rewrite build_dataset_eval_twin in Hin. now apply (Hgen (as_train b2)).
Qed.

Lemma build_dataset_scans_only_parquet_witness :
  exists entries,
    w_dirs example_world !! "data" = Some entries
    /\ In "data/a.parquet" entries
    /\ is_file "data/a.parquet" example_world = true
    /\ path_suffix "data/a.parquet" = ".parquet".
Proof.
  destruct (build_dataset_scans_only_parquet
              (train_builder (example_args f_0_8) example_world)
              example_eval_twin "data" f_zero f_0_8 (PyStr "H") None
              example_world "data/a.parquet") as [H | H].
  - left. vm_compute. right. left. reflexivity.
  - vm_compute in H. destruct H.
  - exact H.
Defined.

(** * Further properties of the generator *)

(** X4: a source row yields a record exactly when its non-null count is
    positive and divides the total length of its non-null sequences, whether
    or not those sequences have the same length; the target then has shape
    [(count, total / count)] over the concatenated values.  So a row with
    sequences of different lengths either raises or is reshaped across the
    column boundaries. *)
Theorem row_record_yields_iff (ts : string) (cols : list string) (r : row)
    (shard : string) (freq : pyvalue) :
  (exists c, r !! ts = Some c) ->
  (forall name, In name cols -> exists c, r !! name = Some c) ->
  exists pr,
    with_columns ts cols r = Ok pr
    /\ ((exists rec, row_record shard freq pr = Ok rec)
        <-> 0 < non_null_count r cols
            /\ Z.of_nat (List.length (non_null_values r cols))
                 mod non_null_count r cols = 0)
    /\ (forall rec,
           row_record shard freq pr = Ok rec ->
           nd_shape (rec_target rec)
           = [non_null_count r cols;
              Z.of_nat (List.length (non_null_values r cols))
                / non_null_count r cols]
           /\ nd_data (rec_target rec) = non_null_values r cols).
Proof.
  intros [c Hts] Hcols.
  destruct (mapM_result_total (col r) cols) as [cells Hcells].
  { apply List.Forall_forall. intros name Hin. destruct (Hcols name Hin) as [c' Hc'].
    exists c'. unfold col. now rewrite Hc'. }
  destruct (with_columns_cells r cols cells Hcells) as [Hn Hv].
  pose proof (non_null_count_nonneg r cols) as Hk0.
  eexists. split.
  { unfold with_columns. rewrite (col_lookup r ts c Hts). cbn [mbind result_bind].
    rewrite Hcells. cbn [mbind result_bind]. reflexivity. }
  unfold row_record. simpl pr_time_series. simpl pr_non_null_columns.
  rewrite Hn, Hv. unfold reshape_rows, nd_size. simpl nd_data.
  set (k := non_null_count r cols) in *.
  set (n := Z.of_nat (List.length (non_null_values r cols))).
  destruct (Z.ltb_spec k 0) as [? | _]; [lia |].
  destruct (Z.eqb_spec k 0) as [Hz | Hz]; simpl orb.
  - split.
    + split; [intros [rec H]; discriminate | lia].
    + intros rec H. discriminate.
  - destruct (Z.eqb_spec (n mod k) 0) as [Hm | Hm]; simpl negb;
      cbn [mbind result_bind].
    + split.
      * split; [intros _; lia | intros _; eexists; reflexivity].
      * intros rec H. inversion H. split; reflexivity.
    + split.
      * split; [intros [rec H]; discriminate | lia].
      * intros rec H. discriminate.
Qed.

Lemma row_record_yields_iff_witness :
  exists pr rec,
    with_columns "ts" ["a"; "b"] ragged_row = Ok pr
    /\ row_record "data/a.parquet" (PyStr "H") pr = Ok rec
    /\ nd_shape (rec_target rec) = [2; 2]
    /\ nd_data (rec_target rec)
       = [float_of_Z 1; float_of_Z 2; float_of_Z 3; float_of_Z 4].
Proof.
  destruct (row_record_yields_iff "ts" ["a"; "b"] ragged_row "data/a.parquet"
              (PyStr "H")) as (pr & Hpr & Hiff & Hshape).
  - eexists. reflexivity.
  - intros name [<- | [<- | []]]; eexists; reflexivity.
  - destruct (proj2 Hiff) as [rec Hrec]; [split; vm_compute; reflexivity |].
    destruct (Hshape rec Hrec) as [Hs Hd].
    exists pr, rec. repeat split; assumption.
Defined.

Lemma selected_rows_bounds (x y : spec_float) (rows : list row) (a b : Z) :
  int_scale (Z.of_nat (List.length rows)) x = Ok a ->
  int_scale (Z.of_nat (List.length rows)) y = Ok b ->
  0 <= a -> a <= b ->
  selected_rows x y rows = take (Z.to_nat (b - a)) (drop (Z.to_nat a) rows).
Proof.
  intros Ha Hb H0 Hab. unfold selected_rows, slice_bounds. rewrite Ha, Hb.
  cbn [mbind result_bind]. apply lf_slice_take_drop; lia.
Qed.

(** X5: row ranges of adjacent fraction ranges are adjacent: for fractions
    [x <= y <= z] in [0, 1] the rows selected for [(x, y)] followed by those
    selected for [(y, z)] are the rows selected for [(x, z)], so no row is
    selected twice or dropped between two consecutive ranges. *)
Theorem selected_rows_adjacent (x y z : spec_float) (rows : list row) :
  Z.of_nat (List.length rows) < 2 ^ 53 ->
  in_unit x = true -> in_unit y = true -> in_unit z = true ->
  float_le x y = true -> float_le y z = true ->
  selected_rows x y rows ++ selected_rows y z rows = selected_rows x z rows.
Proof.
  intros Hn Hx Hy Hz Hxy Hyz.
  destruct (int_scale_mono (Z.of_nat (List.length rows)) x y ltac:(lia) Hx Hy Hxy)
    as (a & b & Ha & Hb & Ha0 & Hab & _).
  destruct (int_scale_mono (Z.of_nat (List.length rows)) y z ltac:(lia) Hy Hz Hyz)
    as (b' & c & Hb' & Hc & _ & Hbc & _).
  rewrite Hb in Hb'. inversion Hb'; subst b'.
  rewrite (selected_rows_bounds x y rows a b), (selected_rows_bounds y z rows b c),
    (selected_rows_bounds x z rows a c) by (trivial; lia).
  replace (Z.to_nat b) with (Z.to_nat a + Z.to_nat (b - a))%nat by lia.
  rewrite <- drop_drop, take_take_drop. f_equal. lia.
Qed.

Lemma selected_rows_adjacent_witness :
  selected_rows f_0_25 f_0_5 example_rows ++ selected_rows f_0_5 f_0_8 example_rows
  = selected_rows f_0_25 f_0_8 example_rows.
Proof.
  apply selected_rows_adjacent; reflexivity.
Defined.

Lemma int_scale_nan (n : Z) :
  0 <= n < 2 ^ 53 ->
  int_scale n S754_nan
  = Err (ValueError "cannot convert float NaN to integer").
Proof.
  intros Hn. unfold int_scale.
  destruct (Z.eq_dec n 0) as [-> | Hne]; [reflexivity |].
  destruct (float_of_int_pos n ltac:(lia)) as (m & e & -> & _). reflexivity.
Qed.

(** X6: a NaN fraction is not caught by the validation, as neither
    [nan > 1.0] nor [nan < 0.0] holds: construction succeeds, and the error
    comes later, when the first file is read: [int(rows * nan)] raises and the
    shard yields no record. *)
Theorem nan_fraction_fails_at_first_read (ts : string) (cols : list string)
    (other : spec_float) (freq : pyvalue) (shard : string) (w : world)
    (rows : list row) :
  in_unit other = true ->
  w_files w !! shard = Some (Parquet rows) ->
  Z.of_nat (List.length rows) < 2 ^ 53 ->
  _from_polars ts cols S754_nan other freq
  = Ok (generator_function ts cols S754_nan other freq, features)
  /\ _from_polars ts cols other S754_nan freq
     = Ok (generator_function ts cols other S754_nan freq, features)
  /\ shard_records ts cols S754_nan other freq shard w
     = (([], Some (ValueError "cannot convert float NaN to integer")),
        log_event (ScanParquet shard) w)
  /\ shard_records ts cols other S754_nan freq shard w
     = (([], Some (ValueError "cannot convert float NaN to integer")),
        log_event (ScanParquet shard) w).
Proof.
  intros Ho Hf Hn.
  pose proof (in_unit_inside other Ho) as Hin.
  destruct (int_scale_range (Z.of_nat (List.length rows)) other ltac:(lia) Ho)
    as (a & Ha & _).
  repeat split.
  - rewrite from_polars_unfold, Hin. reflexivity.
  - rewrite from_polars_unfold, Hin. reflexivity.
  - unfold shard_records, scan_parquet. rewrite Hf. cbn [mbind result_bind].
    unfold collect_shard, slice_bounds. rewrite int_scale_nan by lia. reflexivity.
  - unfold shard_records, scan_parquet. rewrite Hf. cbn [mbind result_bind].
    unfold collect_shard, slice_bounds. rewrite Ha, int_scale_nan by lia.
    reflexivity.
Qed.

Lemma nan_fraction_fails_at_first_read_witness :
  _from_polars "ts" ["a"; "b"] S754_nan f_one (PyStr "H")
  = Ok (generator_function "ts" ["a"; "b"] S754_nan f_one (PyStr "H"), features)
  /\ shard_records "ts" ["a"; "b"] S754_nan f_one (PyStr "H") "data/a.parquet"
       example_world
     = (([], Some (ValueError "cannot convert float NaN to integer")),
        log_event (ScanParquet "data/a.parquet") example_world).
Proof.
  destruct (nan_fraction_fails_at_first_read "ts" ["a"; "b"] f_one (PyStr "H")
              "data/a.parquet" example_world example_rows)
    as (Hc & _ & Hrun & _).
  - reflexivity.
  - reflexivity.
  - vm_compute. reflexivity.
  - split; [exact Hc | exact Hrun].
Defined.

(** * Further properties of the driver *)

Lemma eval_builder_as_train (args : Args) (w : world) :
  as_train (eval_builder args w)
  = {| SimplePolarsDatasetBuilder.dataset := dataset_name args +:+ "_eval";
       SimplePolarsDatasetBuilder.timestemp_column := timestemp_column args;
       SimplePolarsDatasetBuilder.columns := columns args;
       SimplePolarsDatasetBuilder.weight := f_one;
       SimplePolarsDatasetBuilder.sample_time_series := Some NONE;
       SimplePolarsDatasetBuilder.storage_path := w_custom_data_path w |}.
Proof. reflexivity. Qed.

(** [build_datasets] as the two builds it makes *)
Lemma build_datasets_cases (args : Args) (w : world) :
  build_datasets args w
  = match SimplePolarsDatasetBuilder.build_dataset (train_builder args w)
            (folder_path args) f_zero (split_ratio args) (freq args) None w with
    | (Err e, w1) => (Err e, w1)
    | (Ok _, w1) =>
        if py_eq_one (freq args) then (Ok tt, w1)
        else
          SimplePolarsDatasetBuilder.build_dataset
            (as_train (eval_builder args w1)) (folder_path args)
            (split_ratio args) f_one (freq args) None w1
    end.
Proof.
  rewrite build_datasets_unfold.
  destruct (SimplePolarsDatasetBuilder.build_dataset _ _ _ _ _ _ _)
    as [[[] |] w1]; [| reflexivity].
  destruct (py_eq_one (freq args)); [reflexivity |].
  now rewrite <- build_dataset_eval_twin.
Qed.

(** A run over a folder whose parquet files can all be read and reshaped *)
Lemma build_datasets_ok (args : Args) (w : world) (entries : list string) :
  w_dirs w !! folder_path args = Some entries ->
  in_unit (split_ratio args) = true ->
  py_eq_one (freq args) = false ->
  forallb (file_ok (timestemp_column args) (columns args) w)
          (parquet_files entries w) = true ->
  exists (w' : world) (train eval_ : list record),
    build_datasets args w = (Ok tt, w')
    /\ w_saved w'
       = <[path_join (w_custom_data_path w) (dataset_name args +:+ "_eval")
           := {| ds_features := features;
                 ds_name := dataset_name args +:+ "_eval";
                 ds_records := eval_ |}]>
           (<[path_join (w_custom_data_path w) (dataset_name args)
              := {| ds_features := features;
                    ds_name := dataset_name args;
                    ds_records := train |}]> (w_saved w))
    /\ map record_source train
       = flat_map (fun p => selected_rows f_zero (split_ratio args) (file_rows w p))
                  (parquet_files entries w)
    /\ map record_source eval_
       = flat_map (fun p => selected_rows (split_ratio args) f_one (file_rows w p))
                  (parquet_files entries w).
Proof.
  intros Hdir Hsr Hfreq Hok.
  rewrite build_datasets_cases, Hfreq.
  destruct (build_dataset_train_ok (train_builder args w) (folder_path args)
              f_zero (split_ratio args) (freq args) None w entries Hdir
              in_unit_zero Hsr (in_unit_le_zero _ Hsr) Hok)
    as (train & w1 & Hb1 & Hd1 & Hf1 & Hc1 & Hs1 & Hsrc1).
  rewrite Hb1.
  destruct (build_dataset_train_ok (as_train (eval_builder args w1))
              (folder_path args) (split_ratio args) f_one (freq args) None w1
              entries)
    as (eval_ & w2 & Hb2 & Hd2 & Hf2 & Hc2 & Hs2 & Hsrc2).
  { now rewrite Hd1. }
  { exact Hsr. }
  { exact in_unit_one. }
  { exact (in_unit_le_one _ Hsr). }
  { rewrite (parquet_files_files entries w w1 Hf1).
    rewrite <- Hok. apply forallb_ext_In. intros p. now apply file_ok_files. }
  rewrite Hb2. exists w2, train, eval_.
  simpl in Hs1, Hs2. rewrite Hc1 in Hs2.
  split; [reflexivity |]. split; [| split].
  - rewrite Hs2, Hs1. reflexivity.
  - exact Hsrc1.
  - rewrite Hsrc2, (parquet_files_files entries w w1 Hf1).
    apply flat_map_ext_In. intros p Hp.
    now rewrite (file_rows_files w w1 p Hf1).
Qed.

Lemma file_ok_small (ts : string) (cols : list string) (w : world)
    (shards : list string) (p : string) :
  forallb (file_ok ts cols w) shards = true -> In p shards ->
  Z.of_nat (List.length (file_rows w p)) < 2 ^ 53.
Proof.
  intros Hok Hp. rewrite forallb_forall in Hok.
  destruct (file_ok_inv _ _ _ _ (Hok p Hp)) as (rows & Hf & Hn & _).
  unfold file_rows. now rewrite Hf.
Qed.

Lemma flat_map_app_Permutation {A B : Type} (f g : A -> list B) (l : list A) :
  Permutation (flat_map f l ++ flat_map g l) (flat_map (fun x => f x ++ g x) l).
Proof.
  induction l as [| x l IH]; simpl; [constructor |].
  rewrite <- !app_assoc. apply Permutation_app_head.
  rewrite (app_assoc (flat_map f l)).
  etransitivity; [apply Permutation_app_tail, Permutation_app_comm |].
  rewrite <- app_assoc. apply Permutation_app_head, IH.
Qed.

Lemma selected_rows_split (ratio : spec_float) (rows : list row) :
  Z.of_nat (List.length rows) < 2 ^ 53 -> in_unit ratio = true ->
  selected_rows f_zero ratio rows ++ selected_rows ratio f_one rows = rows.
Proof.
  intros Hn Hr.
  rewrite selected_rows_train, selected_rows_eval by assumption.
  apply take_drop.
Qed.

(** X7: a run of [build_datasets] over a folder whose parquet files can all
    be read and reshaped, with a ratio in [0, 1] and a [freq] that is not the
    number 1.0, splits the data without loss or overlap: the records of the
    training dataset and of the eval dataset it saves come, taken together,
    from every row of every parquet file exactly once. *)
Theorem build_datasets_partition (args : Args) (w : world)
    (entries : list string) :
  w_dirs w !! folder_path args = Some entries ->
  in_unit (split_ratio args) = true ->
  py_eq_one (freq args) = false ->
  forallb (file_ok (timestemp_column args) (columns args) w)
          (parquet_files entries w) = true ->
  exists (w' : world) (train eval_ : list record),
    build_datasets args w = (Ok tt, w')
    /\ w_saved w' !! path_join (w_custom_data_path w) (dataset_name args)
       = Some {| ds_features := features; ds_name := dataset_name args;
                 ds_records := train |}
    /\ w_saved w' !! path_join (w_custom_data_path w)
                               (dataset_name args +:+ "_eval")
       = Some {| ds_features := features;
                 ds_name := dataset_name args +:+ "_eval";
                 ds_records := eval_ |}
    /\ Permutation (map record_source train ++ map record_source eval_)
                   (flat_map (file_rows w) (parquet_files entries w)).
Proof.
  intros Hdir Hsr Hfreq Hok.
  destruct (build_datasets_ok args w entries Hdir Hsr Hfreq Hok)
    as (w' & train & eval_ & Hb & Hs & Ht & He).
  exists w', train, eval_. split; [exact Hb |]. rewrite Hs.
  split; [| split].
  - rewrite lookup_insert_ne by apply path_join_eval_ne. apply lookup_insert_eq.
  - apply lookup_insert_eq.
  - rewrite Ht, He.
    etransitivity; [apply flat_map_app_Permutation |].
    erewrite flat_map_ext_In; [reflexivity |].
    intros p Hp. apply selected_rows_split; [| exact Hsr].
    exact (file_ok_small _ _ _ _ _ Hok Hp).
Qed.

Lemma build_datasets_partition_witness :
  exists train eval_ : list record,
    w_saved built_world !! "store/ds"
    = Some {| ds_features := features; ds_name := "ds"; ds_records := train |}
    /\ w_saved built_world !! "store/ds_eval"
       = Some {| ds_features := features; ds_name := "ds_eval";
                 ds_records := eval_ |}
    /\ Permutation (map record_source train ++ map record_source eval_)
                   example_rows.
Proof.
  destruct (build_datasets_partition (example_args f_0_8) example_world
              ["data/a.parquet"; "data/notes.txt"; "data/sub.parquet"])
    as (w' & train & eval_ & Hb & Ht & He & Hp).
  - reflexivity.
  - reflexivity.
  - reflexivity.
  - vm_compute. reflexivity.
  - exists train, eval_. unfold built_world. rewrite Hb.
    split; [exact Ht |]. split; [exact He |].
    etransitivity; [exact Hp |]. vm_compute. reflexivity.
Defined.

Lemma flat_map_nil_In {A B : Type} (f : A -> list B) (l : list A) :
  (forall x, In x l -> f x = []) -> flat_map f l = [].
Proof.
  induction l as [| x l IH]; intros H; simpl; [reflexivity |].
  rewrite (H x (or_introl eq_refl)), IH; [reflexivity |].
  intros y Hy. apply H. now right.
Qed.

(** X8: the extreme ratios do not skip a split, they empty it.  Over a
    folder whose parquet files can all be read and reshaped, and with a
    [freq] that is not the number 1.0, [split_ratio = 1.0] saves a training
    dataset made from every row and an eval dataset with no record, and
    [split_ratio = 0.0] saves a training dataset with no record and an eval
    dataset made from every row. *)
Theorem build_datasets_extreme_ratio (args : Args) (w : world)
    (entries : list string) :
  w_dirs w !! folder_path args = Some entries ->
  split_ratio args = f_one \/ split_ratio args = f_zero ->
  py_eq_one (freq args) = false ->
  forallb (file_ok (timestemp_column args) (columns args) w)
          (parquet_files entries w) = true ->
  exists (w' : world) (train eval_ : list record),
    build_datasets args w = (Ok tt, w')
    /\ w_saved w' !! path_join (w_custom_data_path w) (dataset_name args)
       = Some {| ds_features := features; ds_name := dataset_name args;
                 ds_records := train |}
    /\ w_saved w' !! path_join (w_custom_data_path w)
                               (dataset_name args +:+ "_eval")
       = Some {| ds_features := features;
                 ds_name := dataset_name args +:+ "_eval";
                 ds_records := eval_ |}
    /\ (split_ratio args = f_one ->
        map record_source train
        = flat_map (file_rows w) (parquet_files entries w)
        /\ eval_ = [])
    /\ (split_ratio args = f_zero ->
        train = []
        /\ map record_source eval_
           = flat_map (file_rows w) (parquet_files entries w)).
Proof.
  intros Hdir Hratio Hfreq Hok.
  assert (in_unit (split_ratio args) = true) as Hsr
      by (destruct Hratio as [-> | ->]; reflexivity).
  destruct (build_datasets_ok args w entries Hdir Hsr Hfreq Hok)
    as (w' & train & eval_ & Hb & Hs & Ht & He).
  assert (forall p, In p (parquet_files entries w) ->
                    Z.of_nat (List.length (file_rows w p)) < 2 ^ 53) as Hsmall
      by (intros p; apply (file_ok_small _ _ _ _ _ Hok)).
  assert (forall rows : list row,
             Z.of_nat (List.length rows) < 2 ^ 53 ->
             selected_rows f_zero f_one rows = rows) as Hall.
  { intros rows Hn. rewrite selected_rows_train by (trivial; reflexivity).
    apply take_ge. unfold split_index. rewrite int_scale_one by lia. lia. }
  assert (forall (x : spec_float) (rows : list row),
             Z.of_nat (List.length rows) < 2 ^ 53 -> in_unit x = true ->
             selected_rows x x rows = []) as Hnone.
  { intros x rows Hn Hx. unfold selected_rows, slice_bounds.
    destruct (int_scale_range (Z.of_nat (List.length rows)) x ltac:(lia) Hx)
      as (a & -> & Ha). cbn [mbind result_bind].
    rewrite lf_slice_take_drop by lia. rewrite Z.sub_diag. reflexivity. }
  assert (forall x : spec_float,
             in_unit x = true ->
             flat_map (fun p => selected_rows x x (file_rows w p))
                      (parquet_files entries w) = []) as Hempty.
  { intros x Hx. apply flat_map_nil_In. intros p Hp.
    apply Hnone; [apply Hsmall, Hp | exact Hx]. }
  exists w', train, eval_. split; [exact Hb |]. rewrite Hs.
  split; [| split; [| split]].
  - rewrite lookup_insert_ne by apply path_join_eval_ne. apply lookup_insert_eq.
  - apply lookup_insert_eq.
  - intros H1. rewrite H1 in Ht, He. split.
    + rewrite Ht. apply flat_map_ext_In. intros p Hp. apply Hall, Hsmall, Hp.
    + rewrite Hempty in He by reflexivity. now apply map_eq_nil in He.
  - intros H0. rewrite H0 in Ht, He. split.
    + rewrite Hempty in Ht by reflexivity. now apply map_eq_nil in Ht.
    + rewrite He. apply flat_map_ext_In. intros p Hp. apply Hall, Hsmall, Hp.
Qed.

Lemma build_datasets_extreme_ratio_witness :
  exists train : list record,
    w_saved (snd (build_datasets (example_args f_zero) example_world))
      !! "store/ds"
    = Some {| ds_features := features; ds_name := "ds"; ds_records := [] |}
    /\ w_saved (snd (build_datasets (example_args f_one) example_world))
         !! "store/ds"
       = Some {| ds_features := features; ds_name := "ds"; ds_records := train |}
    /\ map record_source train = example_rows.
Proof.
  destruct (build_datasets_extreme_ratio (example_args f_zero) example_world
              ["data/a.parquet"; "data/notes.txt"; "data/sub.parquet"])
    as (w0 & train0 & eval0 & Hb0 & Ht0 & _ & _ & Hz).
  { reflexivity. }
  { right. reflexivity. }
  { reflexivity. }
  { vm_compute. reflexivity. }
  destruct (build_datasets_extreme_ratio (example_args f_one) example_world
              ["data/a.parquet"; "data/notes.txt"; "data/sub.parquet"])
    as (w1 & train1 & eval1 & Hb1 & Ht1 & _ & Ho & _).
  { reflexivity. }
  { left. reflexivity. }
  { reflexivity. }
  { vm_compute. reflexivity. }
  destruct (Hz eq_refl) as [Hnil _]. destruct (Ho eq_refl) as [Hall _].
  exists train1. rewrite Hb0, Hb1. subst train0.
  split; [exact Ht0 |]. split; [exact Ht1 |].
  rewrite Hall. vm_compute. reflexivity.
Defined.

(** X9: the early return of [build_datasets] depends on [freq] alone.  When
    [freq] equals the number 1.0 the run is the training build and nothing
    more, whatever the split ratio: the result and the accesses are those of
    the training build, and what is stored under the eval dataset's path is
    left as it was. *)
Theorem build_datasets_numeric_freq_one (args : Args) (w : world) :
  py_eq_one (freq args) = true ->
  build_datasets args w
  = SimplePolarsDatasetBuilder.build_dataset (train_builder args w)
      (folder_path args) f_zero (split_ratio args) (freq args) None w
  /\ w_saved (snd (build_datasets args w))
       !! path_join (w_custom_data_path w) (dataset_name args +:+ "_eval")
     = w_saved w
         !! path_join (w_custom_data_path w) (dataset_name args +:+ "_eval").
Proof.
  intros Hfreq.
  assert (build_datasets args w
          = SimplePolarsDatasetBuilder.build_dataset (train_builder args w)
              (folder_path args) f_zero (split_ratio args) (freq args) None w)
    as Heq.
  { rewrite build_datasets_cases, Hfreq.
    destruct (SimplePolarsDatasetBuilder.build_dataset _ _ _ _ _ _ _)
      as [[[] |] w1]; reflexivity. }
  split; [exact Heq |]. rewrite Heq.
  destruct (build_dataset_train_effect (train_builder args w) (folder_path args)
              f_zero (split_ratio args) (freq args) None w)
    as (_ & _ & _ & _ & Hs).
  destruct (fst _).
  - destruct Hs as [recs ->]. apply lookup_insert_ne.
    intros H. symmetry in H. revert H. apply path_join_eval_ne.
  - now rewrite Hs.
Qed.

Lemma build_datasets_numeric_freq_one_witness :
  w_saved (snd (build_datasets
                  {| dataset_name := "ds"; folder_path := "data";
                     timestemp_column := "ts"; columns := ["a"; "b"];
                     split_ratio := f_0_5; freq := PyInt 1 |} example_world))
    !! "store/ds_eval" = None.
Proof.
  destruct (build_datasets_numeric_freq_one
              {| dataset_name := "ds"; folder_path := "data";
                 timestemp_column := "ts"; columns := ["a"; "b"];
                 split_ratio := f_0_5; freq := PyInt 1 |} example_world)
    as [_ H]; [reflexivity | exact H].
Defined.

(** X10: [build_datasets] does not undo the training build when the eval
    build fails.  A failed run is either a failed training build, which
    stores nothing, or a successful training build followed by a failed eval
    build, and then the training dataset stays stored under
    [CUSTOM_DATA_PATH / dataset_name] although the run raised. *)
Theorem build_datasets_failure_keeps_training (args : Args) (w w' : world)
    (e : exn) :
  build_datasets args w = (Err e, w') ->
  (SimplePolarsDatasetBuilder.build_dataset (train_builder args w)
     (folder_path args) f_zero (split_ratio args) (freq args) None w
   = (Err e, w')
   /\ w_saved w' = w_saved w)
  \/ exists (w1 : world) (train : list record),
       SimplePolarsDatasetBuilder.build_dataset (train_builder args w)
         (folder_path args) f_zero (split_ratio args) (freq args) None w
       = (Ok tt, w1)
       /\ py_eq_one (freq args) = false
       /\ SimpleEvalDatasetBuilder.build_dataset (eval_builder args w1)
            (folder_path args) (split_ratio args) f_one (freq args) None w1
          = (Err e, w')
       /\ w_saved w'
          = <[path_join (w_custom_data_path w) (dataset_name args)
              := {| ds_features := features; ds_name := dataset_name args;
                    ds_records := train |}]> (w_saved w).
Proof.
  rewrite build_datasets_cases.
  pose proof (build_dataset_train_effect (train_builder args w)
                (folder_path args) f_zero (split_ratio args) (freq args) None w)
    as (_ & _ & _ & _ & Hs1).
  destruct (SimplePolarsDatasetBuilder.build_dataset (train_builder args w) _ _
              _ _ _ _) as [[[] | e1] w1] eqn:Hb1; simpl fst in Hs1;
    simpl snd in Hs1.
  - destruct (py_eq_one (freq args)); [discriminate |].
    rewrite <- build_dataset_eval_twin. intros Hb2. right.
    destruct Hs1 as [train Hs1]. exists w1, train.
    repeat split; trivial.
    pose proof (build_dataset_train_effect (as_train (eval_builder args w1))
                  (folder_path args) (split_ratio args) f_one (freq args) None
                  w1) as (_ & _ & _ & _ & Hs2).
    rewrite <- build_dataset_eval_twin, Hb2 in Hs2. simpl in Hs2.
    now rewrite Hs2, Hs1.
  - intros H. inversion H; subst. left. split; [reflexivity | exact Hs1].
Qed.

Lemma build_datasets_failure_keeps_training_witness :
  fst (build_datasets (example_args f_0_8) late_null_world)
  = Err (DatasetGenerationError (ValueError "cannot reshape array"))
  /\ exists train : list record,
       w_saved (snd (build_datasets (example_args f_0_8) late_null_world))
         !! "store/ds"
       = Some {| ds_features := features; ds_name := "ds";
                 ds_records := train |}.
Proof.
  assert (build_datasets (example_args f_0_8) late_null_world
          = (Err (DatasetGenerationError (ValueError "cannot reshape array")),
             snd (build_datasets (example_args f_0_8) late_null_world)))
    as Hrun by (vm_compute; reflexivity).
  split; [now rewrite Hrun |].
  destruct (build_datasets_failure_keeps_training _ _ _ _ Hrun)
    as [[Hb _] | (w1 & train & _ & _ & _ & Hs)].
  - vm_compute in Hb. discriminate Hb.
  - exists train. rewrite Hs. apply lookup_insert_eq.
Defined.

(** * Building, then loading *)

(** A successful build, and what it stores *)
Lemma build_dataset_train_success (self : SimplePolarsDatasetBuilder.t)
    (folder : string) (offset end_ : spec_float) (freq : pyvalue)
    (num_workers : option Z) (w w1 : world) :
  SimplePolarsDatasetBuilder.build_dataset self folder offset end_ freq
    num_workers w = (Ok tt, w1) ->
  exists (entries : list string) (recs : list record) (w2 : world),
    w_dirs w !! folder = Some entries
    /\ generator_function (SimplePolarsDatasetBuilder.timestemp_column self)
         (SimplePolarsDatasetBuilder.columns self) offset end_ freq
         (parquet_files entries w) (log_event (ListDir folder) w)
       = ((recs, None), w2)
    /\ w_saved w1
       = <[path_join (SimplePolarsDatasetBuilder.storage_path self)
                     (SimplePolarsDatasetBuilder.dataset self)
           := {| ds_features := features;
                 ds_name := SimplePolarsDatasetBuilder.dataset self;
                 ds_records := recs |}]> (w_saved w).
Proof.
  intros Hb.
  destruct (outside_unit offset || outside_unit end_) eqn:Hout.
  { destruct (build_dataset_invalid self folder offset end_ freq num_workers w
                Hout) as [msg Hm]. rewrite Hm in Hb. discriminate Hb. }
  apply orb_false_elim in Hout as [Ho He].
  rewrite (build_dataset_train_cases self folder offset end_ freq num_workers w
             Ho He) in Hb.
  destruct (w_dirs w !! folder) as [entries |]; [| discriminate Hb].
  destruct (generator_function _ _ _ _ _ _ _) as [[recs [e |]] w2] eqn:Hg;
    [discriminate Hb |].
  exists entries, recs, w2. split; [reflexivity |]. split; [exact Hg |].
  apply generator_function_run in Hg as ((_ & _ & Hs & _) & _).
  inversion Hb; subst w1. simpl. now rewrite Hs.
Qed.

(** X11: what the training builder stores, it loads.  After a successful
    [build_dataset], [load_dataset] of the same builder, with a transform map
    that has the dataset name, returns a view over the dataset just built:
    its records are the ones the generator yielded over the folder's parquet
    files, its name is the builder's dataset name, its transform is the
    factory called without arguments, and weight and sampling are the
    builder's; the load reads the storage once and changes nothing else. *)
Theorem build_then_load_train {T : Type} (self : SimplePolarsDatasetBuilder.t)
    (folder : string) (offset end_ : spec_float) (freq : pyvalue)
    (num_workers : option Z) (transform_map : gmap string (kwargs -> T))
    (factory : kwargs -> T) (w w1 : world) :
  SimplePolarsDatasetBuilder.build_dataset self folder offset end_ freq
    num_workers w = (Ok tt, w1) ->
  transform_map !! SimplePolarsDatasetBuilder.dataset self = Some factory ->
  exists (entries : list string) (recs : list record) (w2 : world),
    w_dirs w !! folder = Some entries
    /\ generator_function (SimplePolarsDatasetBuilder.timestemp_column self)
         (SimplePolarsDatasetBuilder.columns self) offset end_ freq
         (parquet_files entries w) (log_event (ListDir folder) w)
       = ((recs, None), w2)
    /\ SimplePolarsDatasetBuilder.load_dataset self transform_map w1
       = (Ok {| tsd_indexer :=
                  {| ds_features := features;
                     ds_name := SimplePolarsDatasetBuilder.dataset self;
                     ds_records := recs |};
                tsd_transform := factory [];
                tsd_dataset_weight := SimplePolarsDatasetBuilder.weight self;
                tsd_sample_time_series :=
                  SimplePolarsDatasetBuilder.sample_time_series self |},
          log_event
            (LoadFromDisk
               (path_join (SimplePolarsDatasetBuilder.storage_path self)
                          (SimplePolarsDatasetBuilder.dataset self))) w1).
Proof.
  intros Hb Hmap.
  destruct (build_dataset_train_success self folder offset end_ freq
              num_workers w w1 Hb) as (entries & recs & w2 & Hdir & Hg & Hs).
  exists entries, recs, w2. split; [exact Hdir |]. split; [exact Hg |].
  rewrite load_dataset_train_unfold, Hs, lookup_insert_eq, Hmap. reflexivity.
Qed.

Lemma build_then_load_train_witness :
  exists (recs : list record) (w1 : world),
    fst (SimplePolarsDatasetBuilder.load_dataset
           (train_builder (example_args f_0_8) example_world)
           example_transform_map
           (snd (SimplePolarsDatasetBuilder.build_dataset
                   (train_builder (example_args f_0_8) example_world) "data"
                   f_zero f_0_8 (PyStr "H") None example_world)))
    = Ok {| tsd_indexer :=
              {| ds_features := features; ds_name := "ds"; ds_records := recs |};
            tsd_transform := [("train", None)];
            tsd_dataset_weight := f_one;
            tsd_sample_time_series := Some NONE |}
    /\ generator_function "ts" ["a"; "b"] f_zero f_0_8 (PyStr "H")
         ["data/a.parquet"] (log_event (ListDir "data") example_world)
       = ((recs, None), w1).
Proof.
  destruct (build_then_load_train
              (train_builder (example_args f_0_8) example_world) "data" f_zero
              f_0_8 (PyStr "H") None example_transform_map
              (fun kw => ("train", None) :: kw) example_world
              (snd (SimplePolarsDatasetBuilder.build_dataset
                      (train_builder (example_args f_0_8) example_world) "data"
                      f_zero f_0_8 (PyStr "H") None example_world)))
    as (entries & recs & w2 & Hdir & Hg & Hload).
  - vm_compute. reflexivity.
  - reflexivity.
  - exists recs, w2. rewrite Hload. split; [reflexivity |].
    assert (entries = ["data/a.parquet"; "data/notes.txt"; "data/sub.parquet"])
      as -> by (vm_compute in Hdir; congruence).
    exact Hg.
Defined.

(** X12: what the eval builder stores, it loads.  After a successful
    [build_dataset], [load_dataset] of the same builder, with a transform map
    that has the dataset name, returns an eval view over the dataset just
    built, with the builder's window count and with the transform the factory
    returns for the builder's offset, distance, prediction length, context
    length and patch size. *)
Theorem build_then_load_eval {T : Type} (self : SimpleEvalDatasetBuilder.t)
    (folder : string) (offset end_ : spec_float) (freq : pyvalue)
    (num_workers : option Z) (transform_map : gmap string (kwargs -> T))
    (factory : kwargs -> T) (w w1 : world) :
  SimpleEvalDatasetBuilder.build_dataset self folder offset end_ freq
    num_workers w = (Ok tt, w1) ->
  transform_map !! SimpleEvalDatasetBuilder.dataset self = Some factory ->
  exists (entries : list string) (recs : list record) (w2 : world),
    w_dirs w !! folder = Some entries
    /\ generator_function (SimpleEvalDatasetBuilder.timestemp_column self)
         (SimpleEvalDatasetBuilder.columns self) offset end_ freq
         (parquet_files entries w) (log_event (ListDir folder) w)
       = ((recs, None), w2)
    /\ SimpleEvalDatasetBuilder.load_dataset self transform_map w1
       = (Ok {| evd_windows := SimpleEvalDatasetBuilder.windows self;
                evd_indexer :=
                  {| ds_features := features;
                     ds_name := SimpleEvalDatasetBuilder.dataset self;
                     ds_records := recs |};
                evd_transform :=
                  factory
                    [("offset", SimpleEvalDatasetBuilder.offset self);
                     ("distance", SimpleEvalDatasetBuilder.distance self);
                     ("prediction_length",
                      SimpleEvalDatasetBuilder.prediction_length self);
                     ("context_length",
                      SimpleEvalDatasetBuilder.context_length self);
                     ("patch_size", SimpleEvalDatasetBuilder.patch_size self)] |},
          log_event
            (LoadFromDisk
               (path_join (SimpleEvalDatasetBuilder.storage_path self)
                          (SimpleEvalDatasetBuilder.dataset self))) w1).
Proof.
  intros Hb Hmap. rewrite build_dataset_eval_twin in Hb.
  destruct (build_dataset_train_success (as_train self) folder offset end_ freq
              num_workers w w1 Hb) as (entries & recs & w2 & Hdir & Hg & Hs).
  exists entries, recs, w2. split; [exact Hdir |]. split; [exact Hg |].
  simpl in Hs.
  rewrite load_dataset_eval_unfold, Hs, lookup_insert_eq, Hmap. reflexivity.
Qed.

Lemma build_then_load_eval_witness :
  exists recs : list record,
    fst (SimpleEvalDatasetBuilder.load_dataset example_eval_twin
           example_transform_map
           (snd (SimpleEvalDatasetBuilder.build_dataset example_eval_twin
                   "data" f_0_8 f_one (PyStr "H") None example_world)))
    = Ok {| evd_windows := Some 2;
            evd_indexer :=
              {| ds_features := features; ds_name := "ds"; ds_records := recs |};
            evd_transform :=
              [("train", None); ("offset", Some 1); ("distance", Some 3);
               ("prediction_length", Some 4); ("context_length", Some 5);
               ("patch_size", Some 6)] |}.
Proof.
  destruct (build_then_load_eval example_eval_twin "data" f_0_8 f_one
              (PyStr "H") None example_transform_map
              (fun kw => ("train", None) :: kw) example_world
              (snd (SimpleEvalDatasetBuilder.build_dataset example_eval_twin
                      "data" f_0_8 f_one (PyStr "H") None example_world)))
    as (entries & recs & w2 & _ & _ & Hload).
  - vm_compute. reflexivity.
  - reflexivity.
  - exists recs. rewrite Hload. reflexivity.
Defined.

(** * The accesses of a build, and building again *)



(** The records a generator yields depend on the files only. *)
Lemma generator_function_files (ts : string) (cols : list string)
    (offset end_ : spec_float) (freq : pyvalue) (shards : list string) :
  forall w w' : world,
    w_files w' = w_files w ->
    fst (generator_function ts cols offset end_ freq shards w')
    = fst (generator_function ts cols offset end_ freq shards w).
Proof.
  induction shards as [| shard rest IH]; intros w w' Hf; [reflexivity |].
  cbn [generator_function].
  assert (fst (shard_records ts cols offset end_ freq shard w')
          = fst (shard_records ts cols offset end_ freq shard w)) as Hs.
  { unfold shard_records, scan_parquet. rewrite Hf.
    destruct (_ ← _; _); reflexivity. }
  destruct (shard_records ts cols offset end_ freq shard w')
    as [[recs1' err1'] w1'] eqn:Hs'.
  destruct (shard_records ts cols offset end_ freq shard w)
    as [[recs1 err1] w1] eqn:Hs0.
  simpl in Hs. inversion Hs; subst recs1' err1'.
  apply shard_records_fields in Hs' as [-> _].
  apply shard_records_fields in Hs0 as [-> _].
  destruct err1 as [e |]; [reflexivity |].
  specialize (IH (log_event (ScanParquet shard) w)
                 (log_event (ScanParquet shard) w') Hf).
  destruct (generator_function ts cols offset end_ freq rest
              (log_event (ScanParquet shard) w')) as [[r' e'] w2'].
  destruct (generator_function ts cols offset end_ freq rest
              (log_event (ScanParquet shard) w)) as [[r e] w2].
  simpl in IH. inversion IH; subst. reflexivity.
Qed.

(** X14: building again changes nothing.  A build reads the folder and its
    files only, never the storage, and it saves over what is stored at its
    path without looking: a second build of the same builder with the same
    arguments, run after the first, has the same result and leaves the
    storage as the first left it. *)
Theorem build_dataset_again (b1 : SimplePolarsDatasetBuilder.t)
    (b2 : SimpleEvalDatasetBuilder.t) (folder : string)
    (offset end_ : spec_float) (freq : pyvalue) (num_workers : option Z)
    (w : world) :
  (let out1 := SimplePolarsDatasetBuilder.build_dataset b1 folder offset end_
                 freq num_workers w in
   let out2 := SimplePolarsDatasetBuilder.build_dataset b1 folder offset end_
                 freq num_workers (snd out1) in
   fst out2 = fst out1 /\ w_saved (snd out2) = w_saved (snd out1))
  /\ (let out1 := SimpleEvalDatasetBuilder.build_dataset b2 folder offset end_
                    freq num_workers w in
      let out2 := SimpleEvalDatasetBuilder.build_dataset b2 folder offset end_
                    freq num_workers (snd out1) in
      fst out2 = fst out1 /\ w_saved (snd out2) = w_saved (snd out1)).
Proof.
  assert (forall b : SimplePolarsDatasetBuilder.t,
             let out1 := SimplePolarsDatasetBuilder.build_dataset b folder
                           offset end_ freq num_workers w in
             let out2 := SimplePolarsDatasetBuilder.build_dataset b folder
                           offset end_ freq num_workers (snd out1) in
             fst out2 = fst out1 /\ w_saved (snd out2) = w_saved (snd out1))
    as Hgen.
  { intros b. cbn zeta.
    destruct (outside_unit offset || outside_unit end_) eqn:Hout.
    { destruct (build_dataset_invalid b folder offset end_ freq num_workers w
                  Hout) as [msg Hm]. rewrite Hm. simpl snd. rewrite Hm.
      split; reflexivity. }
    apply orb_false_elim in Hout as [Ho He].
    rewrite !(build_dataset_train_cases b folder offset end_ freq num_workers _
                Ho He).
    destruct (w_dirs w !! folder) as [entries |] eqn:Hdir.
    2:{ simpl. rewrite Hdir. split; reflexivity. }
    destruct (generator_function _ _ _ _ _ (parquet_files entries w)
                (log_event (ListDir folder) w)) as [[recs err] w2] eqn:Hg.
    pose proof (generator_function_run _ _ _ _ _ _ _ _ _ _ Hg)
      as ((Hd2 & Hf2 & Hs2 & _) & _).
    simpl in Hd2, Hf2, Hs2.
    set (w3 := snd (match err with
                    | Some e => (Err (DatasetGenerationError e), w2)
                    | None =>
                        save_to_disk
                          {| ds_features := features;
                             ds_name := SimplePolarsDatasetBuilder.dataset b;
                             ds_records := recs |}
                          (path_join (SimplePolarsDatasetBuilder.storage_path b)
                                     (SimplePolarsDatasetBuilder.dataset b)) w2
                    end)).
    assert (w_dirs w3 = w_dirs w /\ w_files w3 = w_files w) as [Hd3 Hf3]
        by (unfold w3; destruct err; simpl; split; assumption).
    rewrite Hd3, Hdir, (parquet_files_files entries w w3 Hf3).
    pose proof (generator_function_files
                  (SimplePolarsDatasetBuilder.timestemp_column b)
                  (SimplePolarsDatasetBuilder.columns b) offset end_ freq
                  (parquet_files entries w) (log_event (ListDir folder) w)
                  (log_event (ListDir folder) w3) Hf3) as Hfst.
    rewrite Hg in Hfst.
    destruct (generator_function _ _ _ _ _ (parquet_files entries w)
                (log_event (ListDir folder) w3)) as [[recs' err'] w4] eqn:Hg'.
    simpl in Hfst. inversion Hfst; subst recs' err'.
    apply generator_function_run in Hg' as ((_ & _ & Hs4 & _) & _).
    simpl in Hs4. unfold w3 in Hs4 |- *.
    destruct err as [e |]; simpl in Hs4 |- *.
    - split; [reflexivity | exact Hs4].
    - split; [reflexivity |]. rewrite Hs4. apply insert_insert_eq. }
  split.
  - apply Hgen.
  - cbn zeta. rewrite !build_dataset_eval_twin. apply (Hgen (as_train b2)).
Qed.

(** * Which entries of the folder are read *)

Lemma rsplit_None (c : ascii) (s : string) :
  ~ In c (list_ascii_of_string s) -> rsplit c s = None.
Proof.
  induction s as [| a s IH]; simpl; intros H; [reflexivity |].
  rewrite IH by tauto.
  destruct (Ascii.eqb_spec a c) as [-> | _]; [tauto | reflexivity].
Qed.

Lemma rsplit_last (c : ascii) (a b : string) :
  rsplit c b = None -> rsplit c (a +:+ String c b) = Some (a, String c b).
Proof.
  intros Hb. induction a as [| x a IH]; simpl.
  - now rewrite Hb, Ascii.eqb_refl.
  - now rewrite IH.
Qed.

Lemma rsplit_None_append (c : ascii) (a b : string) :
  rsplit c a = None -> rsplit c b = None -> rsplit c (a +:+ b) = None.
Proof.
  intros Ha Hb. induction a as [| x a IH]; simpl in *; [exact Hb |].
  destruct (rsplit c a) as [[pre suf] |]; [discriminate |].
  rewrite IH by reflexivity.
  destruct (Ascii.eqb x c); [discriminate | reflexivity].
Qed.

Lemma path_name_join (dir name : string) :
  rsplit "/"%char name = None -> path_name (dir +:+ "/" +:+ name) = name.
Proof.
  intros H. unfold path_name.
  change (dir +:+ "/" +:+ name) with (dir +:+ String "/"%char name).
  now rewrite rsplit_last.
Qed.

(** X15: which entries count as parquet files is decided by the name alone,
    as [Path.suffix] reads it.  For an entry [dir/stem.ext], where the stem
    does not start with a dot and the extension holds no dot, the builders
    read it exactly when it is listed, is a regular file, and [ext] is
    ["parquet"], in lower case; a hidden file named [dir/.ext], [.parquet]
    included, has no suffix and is never read. *)
Theorem parquet_files_by_name (dir stem ext : string) (c : ascii)
    (entries : list string) (w : world) :
  c <> "."%char ->
  ~ In "/"%char (list_ascii_of_string (String c stem)) ->
  ext <> "" ->
  ~ In "."%char (list_ascii_of_string ext) ->
  ~ In "/"%char (list_ascii_of_string ext) ->
  path_suffix (dir +:+ "/" +:+ String c stem +:+ "." +:+ ext) = "." +:+ ext
  /\ (In (dir +:+ "/" +:+ String c stem +:+ "." +:+ ext)
         (parquet_files entries w)
      <-> In (dir +:+ "/" +:+ String c stem +:+ "." +:+ ext) entries
          /\ is_file (dir +:+ "/" +:+ String c stem +:+ "." +:+ ext) w = true
          /\ ext = "parquet")
  /\ path_suffix (dir +:+ "/" +:+ "." +:+ ext) = ""
  /\ ~ In (dir +:+ "/" +:+ "." +:+ ext) (parquet_files entries w).
Proof.
  intros Hc Hstem Hext Hdot Hslash.
  pose proof (rsplit_None _ _ Hdot) as Hd.
  pose proof (rsplit_None _ _ Hslash) as Hs.
  pose proof (rsplit_None _ _ Hstem) as Hst.
  assert (rsplit "/"%char (String "."%char ext) = None) as Hs'.
  { simpl. now rewrite Hs. }
  assert (path_suffix (dir +:+ "/" +:+ String c stem +:+ "." +:+ ext)
          = "." +:+ ext) as Hsuf.
  { unfold path_suffix. rewrite path_name_join.
    - change (String c stem +:+ "." +:+ ext)
        with (String c stem +:+ String "."%char ext).
      rewrite rsplit_last by exact Hd.
      destruct ext as [| a rest]; [contradiction | reflexivity].
    - apply rsplit_None_append; [exact Hst | exact Hs']. }
  assert (path_suffix (dir +:+ "/" +:+ "." +:+ ext) = "") as Hhid.
  { unfold path_suffix. rewrite path_name_join by exact Hs'.
    change ("." +:+ ext) with (String "."%char ext). simpl. now rewrite Hd. }
  split; [exact Hsuf |]. split; [| split; [exact Hhid |]].
  - unfold parquet_files. rewrite filter_In, Hsuf, andb_true_iff, String.eqb_eq.
    split.
    + intros (Hin & Hfile & Heq). inversion Heq. auto.
    + intros (Hin & Hfile & ->). auto.
  - unfold parquet_files. rewrite filter_In, Hhid.
    intros (_ & H). apply andb_prop in H as [_ H]. discriminate H.
Qed.

Lemma parquet_files_by_name_witness :
  In "data/a.parquet"
     (parquet_files ["data/a.parquet"; "data/notes.txt"; "data/sub.parquet"]
                    example_world)
  /\ path_suffix "data/.parquet" = "".
Proof.
  destruct (parquet_files_by_name "data" "" "parquet" "a"%char
              ["data/a.parquet"; "data/notes.txt"; "data/sub.parquet"]
              example_world) as (_ & Hiff & Hhid & _).
  - discriminate.
  - simpl. intros [H | []]. discriminate H.
  - discriminate.
  - simpl. intuition discriminate.
  - simpl. intuition discriminate.
  - split; [| exact Hhid].
    apply (proj2 Hiff). split; [now left |]. split; reflexivity.
Defined.
